(** * reflex-clerk: the session state of [ClerkState] and the REST client

    A shallow embedding of
      - [reflex_clerk/lib/clerk_provider.py], class [ClerkState]
        (the class-level key cache, [set_clerk_session],
        [clear_clerk_session], [clear_clerk_auth_error], [fetch_user]) and
        the part of [ClerkProvider.create] that writes to it;
      - [reflex_clerk/clerk_client/clerk_client.py], class [ClerkAPIClient]
        ([_get_url], [_handle_response], [get_jwks], [get_user]) and
        [get_client].

    Python code runs in a store and may raise: every method is a
    computation [Py A] that takes the store and gives back the store it
    leaves behind together with either a returned value or the exception
    that escapes.  Assignments made before a [raise] stay in the store, as
    they do in Python. *)

From Stdlib Require Import ZArith String Ascii List.
From stdpp Require Import gmap strings list fin_maps.

Local Open Scope string_scope.
Local Open Scope Z_scope.
Set Warnings "-register-all".

(** ** Python values *)

(** The values that JSON documents and JWT claims are made of.  [PNone] is
    Python's [None] (and JSON's [null]). *)
Inductive pyval : Type :=
| PNone
| PBool (b : bool)
| PInt (z : Z)
| PStr (s : string)
| PList (l : list pyval)
| PDict (d : list (string * pyval)).

(** Truth value of an object in an [if]: [None], [False], [0], the empty
    string and the empty containers are false. *)
Definition truthy (v : pyval) : bool :=
  match v with
  | PNone => false
  | PBool b => b
  | PInt z => negb (z =? 0)
  | PStr s => negb (String.eqb s EmptyString)
  | PList l => match l with [] => false | _ => true end
  | PDict d => match d with [] => false | _ => true end
  end.

(** [d.get(k)]: the value under [k], [None] when the key is absent. *)
Definition dict_get (d : gmap string pyval) (k : string) : pyval :=
  default PNone (d !! k).

(** [s.split(',')]: the pieces between commas; never the empty list. *)
Fixpoint split_comma (s : string) : list string :=
  match s with
  | EmptyString => [EmptyString]
  | String c rest =>
      if Ascii.eqb c "," then EmptyString :: split_comma rest
      else match split_comma rest with
           | [] => [String c EmptyString]
           | piece :: pieces => String c piece :: pieces
           end
  end.

(** The number of commas in a string. *)
Fixpoint count_commas (s : string) : nat :=
  match s with
  | EmptyString => 0%nat
  | String c rest =>
      if Ascii.eqb c "," then S (count_commas rest) else count_commas rest
  end.

(** ** Exceptions *)

(** The subclasses of [authlib.jose.errors.JoseError]. *)
Inductive JoseErrorClass : Type :=
| DecodeError
| BadSignatureError
| ExpiredTokenError
| InvalidClaimError
| MissingClaimError
| InvalidTokenError.

Inductive Exception : Type :=
| JoseError (c : JoseErrorClass) (description : string)
| HTTPError (status : Z)
| ValueError (msg : string)
| JSONDecodeError (doc : string)
| RequestException (msg : string).

(** [isinstance(e, JoseError)], the test of [except JoseError as e]. *)
Definition is_JoseError (e : Exception) : bool :=
  match e with JoseError _ _ => true | _ => false end.

(** What running a piece of Python gives: a value, or an exception on its
    way up. *)
Inductive outcome (A : Type) : Type :=
| Returned (a : A)
| Raised (e : Exception).
Arguments Returned {A} a.
Arguments Raised {A} e.

(** ** The REST client ([clerk_client.py]) *)

Record Response : Type := mkResponse {
  status_code : Z;
  text : string
}.

(** What [requests.get] does: the server answers, or the transport fails
    (connection refused, timeout, ...) and requests raises a
    [RequestException]. *)
Inductive transport : Type :=
| Answered (r : Response)
| Failed (msg : string).

Record ClerkAPIClient : Type := mkClerkAPIClient {
  client_base_url : string;
  client_secret_key : option string;
  client_headers : gmap string string
}.

(** A pydantic model class as [_handle_response] uses it: its [__name__]
    and [parse_obj], which gives [None] here when pydantic raises
    [ValidationError] (a [ValueError]). *)
Record response_model (A : Type) : Type := mkModel {
  model_name : string;
  parse_obj : pyval -> option A
}.
Arguments model_name {A} _.
Arguments parse_obj {A} _ _.

(** [JWKSResponse]; every key is kept as the dictionary that [.dict()]
    turns it into. *)
Record JWKSResponse : Type := mkJWKS { keys : list pyval }.

Definition BASE_URL : string := "https://api.clerk.com/v1".

(** [f"{x}"] of a secret key that may be [None]. *)
Definition format_opt (o : option string) : string :=
  match o with Some s => s | None => "None" end.

(** [ClerkAPIClient.__init__] with the default [headers=None]. *)
Definition ClerkAPIClient_init (base_url : string) (secret_key : option string)
  : ClerkAPIClient :=
  {| client_base_url := base_url;
     client_secret_key := secret_key;
     client_headers := <["Authorization" := "Bearer " ++ format_opt secret_key]> ∅ |}.

Definition get_client (secret_key : option string) : ClerkAPIClient :=
  ClerkAPIClient_init BASE_URL secret_key.

Definition _get_url (c : ClerkAPIClient) (endpoint : string) : string :=
  client_base_url c ++ endpoint.

(** [response.raise_for_status()] of the requests library: an [HTTPError]
    for the 4xx and 5xx codes, nothing otherwise. *)
Definition raise_for_status (r : Response) : outcome unit :=
  if (400 <=? status_code r) && (status_code r <? 600)
  then Raised (HTTPError (status_code r))
  else Returned tt.

Section Client.
(** [json.loads] / [response.json()]: [None] when the text is not JSON
    (a [JSONDecodeError], which is a [ValueError]). *)
Variable json_loads : string -> option pyval.

Definition _handle_response {A : Type} (response : Response)
           (model : response_model A) : outcome A :=
  match (if 400 <=? status_code response
         then raise_for_status response else Returned tt) with
  | Raised e => Raised e
  | Returned _ =>
      match json_loads (text response) with
      | Some data =>
          match parse_obj model data with
          | Some obj => Returned obj
          | None =>
              Raised (ValueError ("Failed to parse response '" ++ text response
                                  ++ "' as " ++ model_name model))
          end
      | None =>
          Raised (ValueError ("Failed to parse response '" ++ text response
                              ++ "' as " ++ model_name model))
      end
  end.
End Client.

(** ** The store and the monad of Python computations *)

Section Session.
(** The pydantic classes [User] and [JWKSResponse] of
    [clerk_response_models.py], as far as the client needs them. *)
Variable User : Type.
Variable User_model : response_model User.
Variable JWKSResponse_model : response_model JWKSResponse.

(** The world outside the repository: [json.loads], the text that an
    f-string puts for a value, [os.environ], [requests.get] (what it gives
    may change from one request to the next: it is asked with the requests
    that were sent before), and authlib's
    [jwt.decode(token, {"keys": keys})], which gives the decoded claims or
    raises (a [JoseError] for a text that is no token or for a signature
    that does not match).  In authlib the claims [exp] and [nbf] are checked
    by [JWTClaims.validate], which [decode] does not call. *)
Variable json_loads : string -> option pyval.
Variable py_format : pyval -> string.
Variable environ : gmap string string.
Variable requests_get : list string -> string -> gmap string string -> transport.
Variable jwt_decode : string -> list pyval -> outcome (gmap string pyval).

(** The state vars of one [ClerkState] instance, with the defaults of the
    class body in [ClerkState_init].

    [self__fetch_user] is what [self._fetch_user] reads.  [ClerkState] is a
    Reflex state, and Reflex keeps the attributes of the class body whose
    name starts with an underscore as backend vars: every instance gets a
    copy of its own, made from the default in the class body ([True] for
    [_fetch_user]), and an attribute read on the instance gives that copy.
    An assignment to the class attribute, as in [set_fetch_user_on_auth],
    does not reach it. *)
Record ClerkStateVars : Type := mkVars {
  is_signed_in : bool;
  auth_error : option Exception;
  claims : option (gmap string pyval);
  user_id : pyval;
  user : option User;
  self__fetch_user : bool
}.

Definition ClerkState_init : ClerkStateVars :=
  {| is_signed_in := false; auth_error := None; claims := None;
     user_id := PNone; user := None; self__fetch_user := true |}.

(** The "static class variables" of [ClerkState], shared by all
    instances. *)
Record ClerkStateClass : Type := mkClass {
  _jwt_public_keys : list pyval;
  _secret_key : option string;
  _clerk_api_client : option ClerkAPIClient;
  _fetch_user : bool
}.

Definition ClerkStateClass_init : ClerkStateClass :=
  {| _jwt_public_keys := []; _secret_key := None;
     _clerk_api_client := None; _fetch_user := true |}.

(** The store: one instance, the class, and the URLs that were requested
    from the server so far (oldest first). *)
Record Store : Type := mkStore {
  self : ClerkStateVars;
  cls : ClerkStateClass;
  requested : list string
}.

Definition Py (A : Type) : Type := Store -> outcome A * Store.

Definition ret {A} (a : A) : Py A := fun st => (Returned a, st).

Definition raise {A} (e : Exception) : Py A := fun st => (Raised e, st).

Definition bind {A B} (m : Py A) (k : A -> Py B) : Py B :=
  fun st =>
    match m st with
    | (Returned a, st') => k a st'
    | (Raised e, st') => (Raised e, st')
    end.

(** [try: body  except C as e: handler e], where [catches] is the
    [isinstance] test of the [except] clause.  The handler starts from the
    store that the body left. *)
Definition try_except {A} (body : Py A) (catches : Exception -> bool)
           (handler : Exception -> Py A) : Py A :=
  fun st =>
    match body st with
    | (Returned a, st') => (Returned a, st')
    | (Raised e, st') =>
        if catches e then handler e st' else (Raised e, st')
    end.

Definition lift {A} (o : outcome A) : Py A := fun st => (o, st).

Definition read_self {A} (field : ClerkStateVars -> A) : Py A :=
  fun st => (Returned (field (self st)), st).

Definition read_cls {A} (field : ClerkStateClass -> A) : Py A :=
  fun st => (Returned (field (cls st)), st).

Definition write_self (f : ClerkStateVars -> ClerkStateVars) : Py unit :=
  fun st => (Returned tt,
             {| self := f (self st); cls := cls st; requested := requested st |}).

Definition write_cls (f : ClerkStateClass -> ClerkStateClass) : Py unit :=
  fun st => (Returned tt,
             {| self := self st; cls := f (cls st); requested := requested st |}).

(** [requests.get(url, headers=headers)]. *)
Definition http_get (url : string) (headers : gmap string string) : Py Response :=
  fun st => (match requests_get (requested st) url headers with
             | Answered r => Returned r
             | Failed msg => Raised (RequestException msg)
             end,
             {| self := self st; cls := cls st;
                requested := requested st ++ [url] |}).

Notation "'let*' x ':=' m 'in' k" := (bind m (fun x => k))
  (at level 10, x name, m at level 200, k at level 200, only parsing).
Notation "m1 >> m2" := (bind m1 (fun _ => m2))
  (at level 90, right associativity, only parsing).

(** ** [ClerkAPIClient.get_jwks] and [ClerkAPIClient.get_user] *)

Definition get_jwks (c : ClerkAPIClient) : Py JWKSResponse :=
  let url := _get_url c "/jwks" in
  let* response := http_get url (client_headers c) in
  lift (_handle_response json_loads response JWKSResponse_model).

Definition get_user (c : ClerkAPIClient) (user_id : pyval) : Py User :=
  let url := _get_url c ("/users/" ++ py_format user_id) in
  let* response := http_get url (client_headers c) in
  lift (_handle_response json_loads response User_model).

(** ** The class properties of [ClerkState] *)

Definition set__jwt_public_keys (ks : list pyval) (c : ClerkStateClass) :=
  {| _jwt_public_keys := ks; _secret_key := _secret_key c;
     _clerk_api_client := _clerk_api_client c; _fetch_user := _fetch_user c |}.

Definition set__secret_key (k : option string) (c : ClerkStateClass) :=
  {| _jwt_public_keys := _jwt_public_keys c; _secret_key := k;
     _clerk_api_client := _clerk_api_client c; _fetch_user := _fetch_user c |}.

Definition set__clerk_api_client (a : option ClerkAPIClient) (c : ClerkStateClass) :=
  {| _jwt_public_keys := _jwt_public_keys c; _secret_key := _secret_key c;
     _clerk_api_client := a; _fetch_user := _fetch_user c |}.

Definition set__fetch_user (b : bool) (c : ClerkStateClass) :=
  {| _jwt_public_keys := _jwt_public_keys c; _secret_key := _secret_key c;
     _clerk_api_client := _clerk_api_client c; _fetch_user := b |}.

(** Truth value of a string that may be [None]. *)
Definition truthy_opt (o : option string) : bool :=
  match o with Some s => negb (String.eqb s EmptyString) | None => false end.

(** [ClerkState.secret_key]. *)
Definition secret_key : Py (option string) :=
  let* k := read_cls _secret_key in
  match k with
  | None =>
      match environ !! "CLERK_SECRET_KEY" with
      | Some v => write_cls (set__secret_key (Some v))
      | None => ret tt
      end
  | Some _ => ret tt
  end >>
  read_cls _secret_key.

(** [ClerkState.clerk_api_client].  The property returns
    [cls._clerk_api_client], which is the client just made when there was
    none. *)
Definition clerk_api_client : Py ClerkAPIClient :=
  let* a := read_cls _clerk_api_client in
  match a with
  | Some c => ret c
  | None =>
      let* k := secret_key in
      let c := get_client k in
      write_cls (set__clerk_api_client (Some c)) >>
      ret c
  end.

(** [list(map(json.loads, pieces))]: stops at the first piece that is not
    JSON. *)
Fixpoint loads_all (pieces : list string) : outcome (list pyval) :=
  match pieces with
  | [] => Returned []
  | p :: rest =>
      match json_loads p with
      | None => Raised (JSONDecodeError p)
      | Some v =>
          match loads_all rest with
          | Returned vs => Returned (v :: vs)
          | Raised e => Raised e
          end
      end
  end.

(** [ClerkState.jwt_public_keys].  A client object is always true in
    [cls.secret_key and cls.clerk_api_client], so the second [if] runs
    exactly when the secret key is a non-empty string. *)
Definition jwt_public_keys : Py (list pyval) :=
  let* cached := read_cls _jwt_public_keys in
  match cached with
  | [] =>
      match environ !! "CLERK_JWT_PUBLIC_KEYS" with
      | Some v =>
          let* ks := lift (loads_all (split_comma v)) in
          write_cls (set__jwt_public_keys ks)
      | None => ret tt
      end >>
      let* k := secret_key in
      if truthy_opt k then
        let* c := clerk_api_client in
        let* jwks := get_jwks c in
        write_cls (set__jwt_public_keys (keys jwks))
      else ret tt
  | _ :: _ => ret tt
  end >>
  read_cls _jwt_public_keys.

(** [ClerkState.set_fetch_user_on_auth]. *)
Definition set_fetch_user_on_auth (fetch_user : bool) : Py unit :=
  write_cls (set__fetch_user fetch_user).

(** ** The event handlers of [ClerkState] *)

Definition set_is_signed_in (b : bool) (s : ClerkStateVars) :=
  {| is_signed_in := b; auth_error := auth_error s; claims := claims s;
     user_id := user_id s; user := user s;
     self__fetch_user := self__fetch_user s |}.

Definition set_auth_error (e : option Exception) (s : ClerkStateVars) :=
  {| is_signed_in := is_signed_in s; auth_error := e; claims := claims s;
     user_id := user_id s; user := user s;
     self__fetch_user := self__fetch_user s |}.

Definition set_claims (c : option (gmap string pyval)) (s : ClerkStateVars) :=
  {| is_signed_in := is_signed_in s; auth_error := auth_error s; claims := c;
     user_id := user_id s; user := user s;
     self__fetch_user := self__fetch_user s |}.

Definition set_user_id (u : pyval) (s : ClerkStateVars) :=
  {| is_signed_in := is_signed_in s; auth_error := auth_error s;
     claims := claims s; user_id := u; user := user s;
     self__fetch_user := self__fetch_user s |}.

(** The setter that Reflex generates for the var [user]. *)
Definition set_user (u : option User) (s : ClerkStateVars) :=
  {| is_signed_in := is_signed_in s; auth_error := auth_error s;
     claims := claims s; user_id := user_id s; user := u;
     self__fetch_user := self__fetch_user s |}.

(** [ClerkState.fetch_user]. *)
Definition fetch_user : Py unit :=
  let* uid := read_self user_id in
  if truthy uid then
    let* c := clerk_api_client in
    let* u := get_user c uid in
    write_self (set_user (Some u))
  else ret tt.

(** [ClerkState.set_clerk_session].  The guard reads the class attribute
    [_jwt_public_keys] itself, not the property; the fetch switch is read
    on the instance ([self._fetch_user]); [print] and [logging.warning]
    leave the store alone. *)
Definition set_clerk_session (token : string) : Py unit :=
  let* cached := read_cls _jwt_public_keys in
  match cached with
  | [] => ret tt
  | _ :: _ =>
      try_except
        (let* ks := jwt_public_keys in
         let* decoded := lift (jwt_decode token ks) in
         write_self (set_is_signed_in true) >>
         write_self (set_claims (Some decoded)) >>
         write_self (set_user_id (dict_get decoded "sub")) >>
         let* f := read_self self__fetch_user in
         if f then fetch_user else ret tt)
        is_JoseError
        (fun e => write_self (set_auth_error (Some e)))
  end.

(** [ClerkState.clear_clerk_session]. *)
Definition clear_clerk_session : Py unit :=
  write_self (set_is_signed_in false) >>
  write_self (set_claims None) >>
  write_self (set_auth_error None).

(** [ClerkState.clear_clerk_auth_error]. *)
Definition clear_clerk_auth_error : Py unit :=
  write_self (set_auth_error None).

(** ** [ClerkProvider.create], as far as it touches [ClerkState] *)

(** The two arguments are the props [secret_key] and [publishable_key]
    ([None] when not passed).  The component that is built and returned
    plays no part in the store and is left out; the texts of the two errors
    are cut after their first sentence. *)
Definition ClerkProvider_create (secret_key_prop publishable_key_prop : option string)
  : Py unit :=
  (if truthy_opt secret_key_prop
   then write_cls (set__secret_key secret_key_prop)
   else ret tt) >>
  let* k := secret_key in
  if negb (truthy_opt k)
  then raise (ValueError "ClerkProvider requires a secret_key.")
  else
    let publishable_key :=
      if negb (truthy_opt publishable_key_prop)
      then environ !! "CLERK_PUBLISHABLE_KEY"
      else publishable_key_prop in
    if negb (truthy_opt publishable_key)
    then raise (ValueError "ClerkProvider requires a publishable_key.")
    else ret tt.

(** ** The life of a session *)

(** What can happen to the store: the four event handlers of [ClerkState],
    the class method [set_fetch_user_on_auth], a read of the class property
    [jwt_public_keys], and a [ClerkProvider.create]. *)
Inductive event : Type :=
| SetClerkSession (token : string)
| ClearClerkSession
| ClearClerkAuthError
| FetchUser
| SetFetchUserOnAuth (fetch_user : bool)
| ReadJwtPublicKeys
| ProviderCreate (secret_key_prop publishable_key_prop : option string).

(** The store after an event; an exception that escapes the handler does
    not undo what the handler wrote. *)
Definition handle (ev : event) (st : Store) : Store :=
  match ev with
  | SetClerkSession token => snd (set_clerk_session token st)
  | ClearClerkSession => snd (clear_clerk_session st)
  | ClearClerkAuthError => snd (clear_clerk_auth_error st)
  | FetchUser => snd (fetch_user st)
  | SetFetchUserOnAuth b => snd (set_fetch_user_on_auth b st)
  | ReadJwtPublicKeys => snd (jwt_public_keys st)
  | ProviderCreate sk pk => snd (ClerkProvider_create sk pk st)
  end.

(** The stores a session can be in: it starts with the default vars of a
    new [ClerkState], whatever the class holds at that time, and goes
    through events. *)
Inductive reachable : Store -> Prop :=
| reachable_new (c : ClerkStateClass) (r : list string) :
    reachable {| self := ClerkState_init; cls := c; requested := r |}
| reachable_step (st : Store) (ev : event) :
    reachable st -> reachable (handle ev st).

(** The store after a list of events, first event first. *)
Definition run_events (evs : list event) (st : Store) : Store :=
  fold_left (fun s ev => handle ev s) evs st.

(** A computation that writes no var of the instance. *)
Definition keeps_self {A} (m : Py A) : Prop :=
  forall st, self (snd (m st)) = self st.

(** ** What the class properties compute *)

(** The secret key that [ClerkState.secret_key] returns: the class
    attribute, or else the environment variable. *)
Definition resolved_secret_key (c : ClerkStateClass) : option string :=
  match _secret_key c with
  | Some k => Some k
  | None => environ !! "CLERK_SECRET_KEY"
  end.

(** The client that [ClerkState.clerk_api_client] returns. *)
Definition resolved_client (c : ClerkStateClass) : ClerkAPIClient :=
  match _clerk_api_client c with
  | Some a => a
  | None => get_client (resolved_secret_key c)
  end.

(** The class attributes after [ClerkState.clerk_api_client] ran. *)
Definition cls_with_client (c : ClerkStateClass) : ClerkStateClass :=
  match _clerk_api_client c with
  | Some _ => c
  | None =>
      set__clerk_api_client (Some (resolved_client c))
        (set__secret_key (resolved_secret_key c) c)
  end.

(** What [get_user] gives for the user id [uid] when the requests [log]
    were sent before and the class attributes are [c]: the parsed answer of
    the server, or the exception raised. *)
Definition user_answer (log : list string) (c : ClerkStateClass) (uid : pyval)
  : outcome User :=
  let a := resolved_client c in
  match requests_get log (_get_url a ("/users/" ++ py_format uid))
                     (client_headers a) with
  | Answered r => _handle_response json_loads r User_model
  | Failed msg => Raised (RequestException msg)
  end.

(** The URL that [get_user] requests. *)
Definition user_url (c : ClerkStateClass) (uid : pyval) : string :=
  _get_url (resolved_client c) ("/users/" ++ py_format uid).

(** What [get_jwks] gives when the requests [log] were sent before and the
    class attributes are [c]. *)
Definition jwks_answer (log : list string) (c : ClerkStateClass)
  : outcome JWKSResponse :=
  let a := resolved_client c in
  match requests_get log (_get_url a "/jwks") (client_headers a) with
  | Answered r => _handle_response json_loads r JWKSResponse_model
  | Failed msg => Raised (RequestException msg)
  end.


(** The vars of the instance after a successful [jwt.decode]. *)
Definition signed_in_as (decoded : gmap string pyval) (s : ClerkStateVars)
  : ClerkStateVars :=
  set_user_id (dict_get decoded "sub")
    (set_claims (Some decoded) (set_is_signed_in true s)).

Ltac py_unfold :=
  unfold bind, ret, raise, lift, try_except,
         read_self, read_cls, write_self, write_cls, http_get.

Lemma secret_key_run (st : Store) :
  secret_key st =
  (Returned (resolved_secret_key (cls st)),
   {| self := self st;
      cls := set__secret_key (resolved_secret_key (cls st)) (cls st);
      requested := requested st |}).
Proof.
  destruct st as [s [ks sk cl fu] r].
  unfold secret_key, resolved_secret_key, set__secret_key. py_unfold. simpl.
  destruct sk as [k|]; simpl; [reflexivity|].
  destruct (environ !! "CLERK_SECRET_KEY"); reflexivity.
Qed.

Lemma clerk_api_client_run (st : Store) :
  clerk_api_client st =
  (Returned (resolved_client (cls st)),
   {| self := self st; cls := cls_with_client (cls st);
      requested := requested st |}).
Proof.
  unfold clerk_api_client, bind at 1, read_cls at 1.
  unfold resolved_client, cls_with_client.
  destruct (_clerk_api_client (cls st)) as [a|] eqn:Ha.
  - destruct st; reflexivity.
  - unfold bind at 1. rewrite secret_key_run.
    unfold resolved_client. rewrite Ha. reflexivity.
Qed.

Lemma cls_with_client_keys (c : ClerkStateClass) :
  _jwt_public_keys (cls_with_client c) = _jwt_public_keys c.
Proof. unfold cls_with_client. destruct (_clerk_api_client c); reflexivity. Qed.

Lemma cls_with_client_fetch_user (c : ClerkStateClass) :
  _fetch_user (cls_with_client c) = _fetch_user c.
Proof. unfold cls_with_client. destruct (_clerk_api_client c); reflexivity. Qed.

(** [_handle_response] raises an [HTTPError] or a [ValueError], never a
    [JoseError]. *)
Lemma _handle_response_not_jose {A} (r : Response) (m : response_model A) e :
  _handle_response json_loads r m = Raised e -> is_JoseError e = false.
Proof.
  unfold _handle_response, raise_for_status.
  destruct (400 <=? status_code r); simpl.
  - destruct (status_code r <? 600); simpl.
    + intros [= <-]. reflexivity.
    + destruct (json_loads (text r)) as [d|]; [destruct (parse_obj m d)|];
        intros [= <-]; reflexivity.
  - destruct (json_loads (text r)) as [d|]; [destruct (parse_obj m d)|];
      intros [= <-]; reflexivity.
Qed.

Lemma user_answer_not_jose (log : list string) (c : ClerkStateClass) (uid : pyval) e :
  user_answer log c uid = Raised e -> is_JoseError e = false.
Proof.
  unfold user_answer.
  destruct (requests_get _ _) as [r|msg].
  - apply _handle_response_not_jose.
  - intros [= <-]. reflexivity.
Qed.

(** [fetch_user] with no usable user id does nothing at all. *)
Lemma fetch_user_skip (st : Store) :
  truthy (user_id (self st)) = false -> fetch_user st = (Returned tt, st).
Proof.
  intros Hu. unfold fetch_user. py_unfold. rewrite Hu. reflexivity.
Qed.

(** [fetch_user] with a user id: one request, and the user is stored when
    the answer parses. *)
Lemma fetch_user_run (st : Store) :
  truthy (user_id (self st)) = true ->
  fetch_user st =
  (match user_answer (requested st) (cls st) (user_id (self st)) with
   | Returned _ => Returned tt
   | Raised e => Raised e
   end,
   {| self := match user_answer (requested st) (cls st) (user_id (self st)) with
              | Returned u => set_user (Some u) (self st)
              | Raised _ => self st
              end;
      cls := cls_with_client (cls st);
      requested := requested st ++ [user_url (cls st) (user_id (self st))] |}).
Proof.
  intros Hu. unfold fetch_user.
  unfold bind at 1, read_self at 1. rewrite Hu.
  unfold bind at 1. rewrite clerk_api_client_run.
  unfold get_user, user_answer, user_url. py_unfold. simpl.
  destruct (requests_get _ _) as [r|msg]; simpl; [|reflexivity].
  destruct (_handle_response json_loads r User_model); reflexivity.
Qed.

(** With keys in the cache the property [jwt_public_keys] only reads. *)
Lemma jwt_public_keys_cached (st : Store) :
  _jwt_public_keys (cls st) <> [] ->
  jwt_public_keys st = (Returned (_jwt_public_keys (cls st)), st).
Proof.
  intros Hk. unfold jwt_public_keys. py_unfold.
  destruct (_jwt_public_keys (cls st)) eqn:E; [congruence|].
  rewrite E. reflexivity.
Qed.

(** [fetch_user] never raises a [JoseError]: what it raises comes from
    [requests.get] or from [_handle_response]. *)
Lemma fetch_user_not_jose (st : Store) e :
  fst (fetch_user st) = Raised e -> is_JoseError e = false.
Proof.
  destruct (truthy (user_id (self st))) eqn:Hu.
  - rewrite fetch_user_run by exact Hu. simpl.
    destruct (user_answer _ _) eqn:Ha; [discriminate|].
    intros [= <-]. eapply user_answer_not_jose, Ha.
  - rewrite fetch_user_skip by exact Hu. discriminate.
Qed.

(** [fetch_user] writes no var of the instance but [user]. *)
Lemma fetch_user_frame (st : Store) :
  let s' := self (snd (fetch_user st)) in
  is_signed_in s' = is_signed_in (self st) /\
  auth_error s' = auth_error (self st) /\
  claims s' = claims (self st) /\
  user_id s' = user_id (self st).
Proof.
  destruct (truthy (user_id (self st))) eqn:Hu.
  - rewrite fetch_user_run by exact Hu. simpl.
    destruct (user_answer _ _); simpl; auto.
  - rewrite fetch_user_skip by exact Hu. simpl. auto.
Qed.

(** *** The three ways through [set_clerk_session] *)

(** No key in the cache: the call is skipped. *)
Lemma set_clerk_session_skipped (token : string) (st : Store) :
  _jwt_public_keys (cls st) = [] ->
  set_clerk_session token st = (Returned tt, st).
Proof.
  intros Hk. unfold set_clerk_session. py_unfold. rewrite Hk. reflexivity.
Qed.

(** [jwt.decode] raises: a [JoseError] is stored, anything else escapes. *)
Lemma set_clerk_session_raised (token : string) (st : Store) e :
  _jwt_public_keys (cls st) <> [] ->
  jwt_decode token (_jwt_public_keys (cls st)) = Raised e ->
  set_clerk_session token st =
  if is_JoseError e
  then (Returned tt,
        {| self := set_auth_error (Some e) (self st); cls := cls st;
           requested := requested st |})
  else (Raised e, st).
Proof.
  intros Hk Hd. unfold set_clerk_session.
  unfold bind at 1, read_cls at 1.
  destruct (_jwt_public_keys (cls st)) as [|k ks] eqn:E; [congruence|].
  unfold try_except. unfold bind at 1.
  rewrite jwt_public_keys_cached by (rewrite E; discriminate).
  rewrite E. unfold bind at 1, lift at 1. rewrite Hd.
  destruct (is_JoseError e); reflexivity.
Qed.

(** [jwt.decode] returns claims: the three vars are written, then the user
    is fetched if the switch of the instance says so; what [fetch_user]
    raises escapes. *)
Lemma set_clerk_session_decoded (token : string) (st : Store) decoded :
  _jwt_public_keys (cls st) <> [] ->
  jwt_decode token (_jwt_public_keys (cls st)) = Returned decoded ->
  set_clerk_session token st =
  let st1 := {| self := signed_in_as decoded (self st); cls := cls st;
                requested := requested st |} in
  if self__fetch_user (self st) then fetch_user st1 else (Returned tt, st1).
Proof.
  intros Hk Hd. unfold set_clerk_session.
  unfold bind at 1, read_cls at 1.
  destruct (_jwt_public_keys (cls st)) as [|k ks] eqn:E; [congruence|].
  unfold try_except. unfold bind at 1.
  rewrite jwt_public_keys_cached by (rewrite E; discriminate).
  rewrite E. unfold bind at 1, lift at 1. rewrite Hd.
  unfold bind, write_self, read_cls, ret. simpl.
  fold (signed_in_as decoded (self st)).
  destruct (self__fetch_user (self st)); [|reflexivity].
  destruct (fetch_user _) as [[[]|e] st2] eqn:Hf; [reflexivity|].
  assert (Hj : is_JoseError e = false).
  { apply (fetch_user_not_jose
             {| self := signed_in_as decoded (self st); cls := cls st;
                requested := requested st |}).
    rewrite Hf. reflexivity. }
  rewrite Hj. reflexivity.
Qed.

(** After a successful decode, whatever [fetch_user] does. *)
Lemma set_clerk_session_decoded_vars (token : string) (st : Store) decoded :
  _jwt_public_keys (cls st) <> [] ->
  jwt_decode token (_jwt_public_keys (cls st)) = Returned decoded ->
  let s' := self (snd (set_clerk_session token st)) in
  is_signed_in s' = true /\
  claims s' = Some decoded /\
  user_id s' = dict_get decoded "sub" /\
  auth_error s' = auth_error (self st).
Proof.
  intros Hk Hd. rewrite (set_clerk_session_decoded token st decoded Hk Hd).
  cbv zeta. destruct (self__fetch_user (self st)).
  - pose proof (fetch_user_frame
                  {| self := signed_in_as decoded (self st); cls := cls st;
                     requested := requested st |}) as H.
    cbv zeta in H. simpl in H. tauto.
  - simpl. auto.
Qed.

(** ** Presenting a token *)

(** C1, as the code has it: [set_clerk_session] never looks at the clock or
    at the [exp] claim.  Whenever [jwt.decode] returns the claims of a
    token, also one whose [exp] lies before the time [now] of the call, the
    session becomes signed in with these claims and no error is stored. *)
Theorem set_clerk_session_expired_signs_in
        (token : string) (st : Store) (decoded : gmap string pyval) (exp now : Z) :
  _jwt_public_keys (cls st) <> [] ->
  jwt_decode token (_jwt_public_keys (cls st)) = Returned decoded ->
  decoded !! "exp" = Some (PInt exp) ->
  exp < now ->
  let st' := snd (set_clerk_session token st) in
  is_signed_in (self st') = true /\
  claims (self st') = Some decoded /\
  auth_error (self st') = auth_error (self st).
Proof.
  intros Hk Hd _ _.
  pose proof (set_clerk_session_decoded_vars token st decoded Hk Hd) as H.
  cbv zeta in *. tauto.
Qed.

(** C2, amended: when [jwt.decode] raises a [JoseError], the call returns
    normally with that error in [auth_error]; [is_signed_in], [claims],
    [user_id] and [user] keep the values they had, the class is untouched
    and no request is sent. *)
Theorem set_clerk_session_failure_only_sets_error
        (token : string) (st : Store) (e : Exception) :
  _jwt_public_keys (cls st) <> [] ->
  jwt_decode token (_jwt_public_keys (cls st)) = Raised e ->
  is_JoseError e = true ->
  let st' := snd (set_clerk_session token st) in
  fst (set_clerk_session token st) = Returned tt /\
  auth_error (self st') = Some e /\
  is_signed_in (self st') = is_signed_in (self st) /\
  claims (self st') = claims (self st) /\
  user_id (self st') = user_id (self st) /\
  user (self st') = user (self st) /\
  cls st' = cls st /\
  requested st' = requested st.
Proof.
  intros Hk Hd He.
  rewrite (set_clerk_session_raised token st e Hk Hd), He.
  cbv zeta. simpl. repeat split.
Qed.

(** C6, amended: when [jwt.decode] returns claims, the session is signed
    in, [claims] holds the decoded claims and [user_id] their [sub] entry
    ([None] when there is none); [auth_error] is not cleared, it keeps the
    value it had before the call. *)
Theorem set_clerk_session_success_keeps_error
        (token : string) (st : Store) (decoded : gmap string pyval) :
  _jwt_public_keys (cls st) <> [] ->
  jwt_decode token (_jwt_public_keys (cls st)) = Returned decoded ->
  let st' := snd (set_clerk_session token st) in
  is_signed_in (self st') = true /\
  claims (self st') = Some decoded /\
  user_id (self st') = dict_get decoded "sub" /\
  auth_error (self st') = auth_error (self st).
Proof.
  intros Hk Hd. exact (set_clerk_session_decoded_vars token st decoded Hk Hd).
Qed.

(** C9: with no key in the cache, [set_clerk_session] returns at once and
    the store is the one it started from: [is_signed_in], [claims],
    [user_id], [user] and [auth_error] all keep their values. *)
Theorem set_clerk_session_no_keys_unchanged (token : string) (st : Store) :
  _jwt_public_keys (cls st) = [] ->
  let st' := snd (set_clerk_session token st) in
  st' = st /\
  is_signed_in (self st') = is_signed_in (self st) /\
  claims (self st') = claims (self st) /\
  user_id (self st') = user_id (self st) /\
  user (self st') = user (self st) /\
  auth_error (self st') = auth_error (self st).
Proof.
  intros Hk. rewrite (set_clerk_session_skipped token st Hk).
  cbv zeta. simpl. repeat split.
Qed.

(** ** Withdrawing the token *)

(** C7: [clear_clerk_session] is idempotent.  Once or twice in a row, it
    returns normally and ends in the same store, with [is_signed_in]
    false, [claims] and [auth_error] [None], and [user] and [user_id] as
    they were before the first call. *)
Theorem clear_clerk_session_idempotent (st : Store) :
  let once := snd (clear_clerk_session st) in
  let twice := snd (clear_clerk_session once) in
  twice = once /\
  fst (clear_clerk_session st) = Returned tt /\
  fst (clear_clerk_session once) = Returned tt /\
  is_signed_in (self once) = false /\
  claims (self once) = None /\
  auth_error (self once) = None /\
  user (self once) = user (self st) /\
  user_id (self once) = user_id (self st) /\
  user (self twice) = user (self st) /\
  user_id (self twice) = user_id (self st).
Proof.
  destruct st as [[si ae cl uid u] c r].
  cbv zeta. unfold clear_clerk_session. py_unfold. simpl. repeat split.
Qed.

(** ** Fetching the user *)

(** C10: [fetch_user] with [user_id] [None] or the empty string returns
    normally, sends no request and leaves the whole store, [user]
    included, as it was. *)
Theorem fetch_user_without_user_id (st : Store) :
  user_id (self st) = PNone \/ user_id (self st) = PStr EmptyString ->
  fetch_user st = (Returned tt, st) /\
  requested (snd (fetch_user st)) = requested st /\
  user (self (snd (fetch_user st))) = user (self st).
Proof.
  intros Hu.
  assert (Ht : truthy (user_id (self st)) = false)
    by (destruct Hu as [-> | ->]; reflexivity).
  rewrite (fetch_user_skip st Ht). simpl. repeat split.
Qed.

Lemma resolved_client_with_client (c : ClerkStateClass) :
  resolved_client (cls_with_client c) = resolved_client c.
Proof.
  unfold cls_with_client, resolved_client at 1.
  destruct (_clerk_api_client c) as [a|] eqn:Ha.
  - rewrite Ha. unfold resolved_client. rewrite Ha. reflexivity.
  - reflexivity.
Qed.

Lemma user_answer_with_client (log : list string) (c : ClerkStateClass) (uid : pyval) :
  user_answer log (cls_with_client c) uid = user_answer log c uid.
Proof. unfold user_answer. rewrite resolved_client_with_client. reflexivity. Qed.

(** A failed fetch is raised by [fetch_user], with the store untouched but
    for the client made on the way and the request sent. *)
Lemma fetch_user_failure_raised (st : Store) (e : Exception) :
  truthy (user_id (self st)) = true ->
  user_answer (requested st) (cls st) (user_id (self st)) = Raised e ->
  fst (fetch_user st) = Raised e /\ self (snd (fetch_user st)) = self st.
Proof.
  intros Ht Ha. rewrite (fetch_user_run st Ht), Ha. simpl. split; reflexivity.
Qed.

(** C4, amended: a failure of the user fetch (the transport fails, the
    server answers with a status from 400 to 599, or the body does not parse
    as a [User]) is not captured.  [set_clerk_session], which catches only
    [JoseError], lets the exception escape to its caller, and so does a
    later [fetch_user] when the fetch fails again; in the store left behind
    [is_signed_in] is true, [user] and [auth_error] keep the values they
    had before, and the request is on record. *)
Theorem set_clerk_session_fetch_failure_escapes
        (token : string) (st : Store) (decoded : gmap string pyval)
        (e : Exception) :
  _jwt_public_keys (cls st) <> [] ->
  jwt_decode token (_jwt_public_keys (cls st)) = Returned decoded ->
  self__fetch_user (self st) = true ->
  truthy (dict_get decoded "sub") = true ->
  user_answer (requested st) (cls st) (dict_get decoded "sub") = Raised e ->
  let st' := snd (set_clerk_session token st) in
  fst (set_clerk_session token st) = Raised e /\
  is_signed_in (self st') = true /\
  user (self st') = user (self st) /\
  auth_error (self st') = auth_error (self st) /\
  requested st' =
    (requested st ++ [user_url (cls st) (dict_get decoded "sub")])%list /\
  (forall e',
      user_answer (requested st') (cls st') (dict_get decoded "sub") = Raised e' ->
      fst (fetch_user st') = Raised e').
Proof.
  intros Hk Hd Hf Ht Ha.
  rewrite (set_clerk_session_decoded token st decoded Hk Hd).
  cbv zeta. rewrite Hf.
  set (st1 := {| self := signed_in_as decoded (self st); cls := cls st;
                 requested := requested st |}).
  assert (Ht1 : truthy (user_id (self st1)) = true) by exact Ht.
  rewrite (fetch_user_run st1 Ht1).
  change (user_id (self st1)) with (dict_get decoded "sub").
  change (cls st1) with (cls st). change (requested st1) with (requested st).
  rewrite Ha. cbn [fst snd self cls requested].
  split; [reflexivity|]. split; [reflexivity|]. split; [reflexivity|].
  split; [reflexivity|]. split; [reflexivity|].
  intros e' Ha'.
  match goal with |- fst (fetch_user ?s) = _ => set (st2 := s) in * end.
  assert (Ht2 : truthy (user_id (self st2)) = true) by exact Ht.
  rewrite (fetch_user_run st2 Ht2).
  change (user_id (self st2)) with (dict_get decoded "sub").
  unfold st2 in *. cbn [self cls requested] in *. rewrite Ha'. reflexivity.
Qed.

(** ** Signed in only with keys *)

Lemma keeps_self_ret {A} (a : A) : keeps_self (ret a).
Proof. intros st. reflexivity. Qed.

Lemma keeps_self_raise {A} (e : Exception) : keeps_self (@raise A e).
Proof. intros st. reflexivity. Qed.

Lemma keeps_self_lift {A} (o : outcome A) : keeps_self (lift o).
Proof. intros st. reflexivity. Qed.

Lemma keeps_self_read_cls {A} (f : ClerkStateClass -> A) : keeps_self (read_cls f).
Proof. intros st. reflexivity. Qed.

Lemma keeps_self_write_cls (f : ClerkStateClass -> ClerkStateClass) :
  keeps_self (write_cls f).
Proof. intros st. reflexivity. Qed.

Lemma keeps_self_http_get (url : string) (h : gmap string string) :
  keeps_self (http_get url h).
Proof. intros st. reflexivity. Qed.

Lemma keeps_self_bind {A B} (m : Py A) (k : A -> Py B) :
  keeps_self m -> (forall a, keeps_self (k a)) -> keeps_self (bind m k).
Proof.
  intros Hm Hk st. unfold bind.
  specialize (Hm st). destruct (m st) as [[a|e] st1]; simpl in *.
  - rewrite Hk. exact Hm.
  - exact Hm.
Qed.

Create HintDb keeps_self.
#[local] Hint Resolve keeps_self_ret keeps_self_raise keeps_self_lift
  keeps_self_read_cls keeps_self_write_cls keeps_self_http_get : keeps_self.

Ltac keeps_self_step :=
  match goal with
  | |- keeps_self (bind _ _) => apply keeps_self_bind; [|intros ?]
  | |- keeps_self (match ?x with _ => _ end) => destruct x
  | |- keeps_self (if ?b then _ else _) => destruct b
  | |- keeps_self _ => solve [auto with keeps_self]
  end.

Lemma keeps_self_secret_key : keeps_self secret_key.
Proof. unfold secret_key. repeat keeps_self_step. Qed.

Lemma keeps_self_clerk_api_client : keeps_self clerk_api_client.
Proof.
  unfold clerk_api_client.
  repeat first [apply keeps_self_secret_key | keeps_self_step].
Qed.

Lemma keeps_self_get_jwks (c : ClerkAPIClient) : keeps_self (get_jwks c).
Proof. unfold get_jwks. cbv zeta. repeat keeps_self_step. Qed.

Lemma keeps_self_jwt_public_keys : keeps_self jwt_public_keys.
Proof.
  unfold jwt_public_keys.
  repeat first [apply keeps_self_secret_key | apply keeps_self_clerk_api_client
               | apply keeps_self_get_jwks | keeps_self_step].
Qed.

Lemma keeps_self_ClerkProvider_create (sk pk : option string) :
  keeps_self (ClerkProvider_create sk pk).
Proof.
  unfold ClerkProvider_create. cbv zeta.
  repeat first [apply keeps_self_secret_key | keeps_self_step].
Qed.

(** The class methods that never assign [_jwt_public_keys]. *)
Lemma secret_key_keys (st : Store) :
  _jwt_public_keys (cls (snd (secret_key st))) = _jwt_public_keys (cls st).
Proof. rewrite secret_key_run. reflexivity. Qed.

Lemma ClerkProvider_create_keys (sk pk : option string) (st : Store) :
  _jwt_public_keys (cls (snd (ClerkProvider_create sk pk st)))
  = _jwt_public_keys (cls st).
Proof.
  unfold ClerkProvider_create. cbv zeta. unfold bind at 1.
  destruct (truthy_opt sk); unfold write_cls, ret; unfold bind;
    rewrite secret_key_run;
    destruct (negb (truthy_opt (resolved_secret_key _)));
    try reflexivity;
    destruct (negb (truthy_opt _)); reflexivity.
Qed.

Lemma fetch_user_keys (st : Store) :
  _jwt_public_keys (cls (snd (fetch_user st))) = _jwt_public_keys (cls st).
Proof.
  destruct (truthy (user_id (self st))) eqn:Hu.
  - rewrite (fetch_user_run st Hu). simpl. apply cls_with_client_keys.
  - rewrite (fetch_user_skip st Hu). reflexivity.
Qed.

(** Keys that are in the cache stay there through [set_clerk_session]. *)
Lemma set_clerk_session_keys (token : string) (st : Store) :
  _jwt_public_keys (cls (snd (set_clerk_session token st)))
  = _jwt_public_keys (cls st).
Proof.
  destruct (_jwt_public_keys (cls st)) as [|k ks] eqn:E.
  - rewrite (set_clerk_session_skipped token st E). exact E.
  - assert (Hk : _jwt_public_keys (cls st) <> []) by (rewrite E; discriminate).
    destruct (jwt_decode token (_jwt_public_keys (cls st))) as [d|e] eqn:Hd.
    + rewrite (set_clerk_session_decoded token st d Hk Hd). cbv zeta.
      destruct (self__fetch_user (self st)).
      * rewrite fetch_user_keys. exact E.
      * exact E.
    + rewrite (set_clerk_session_raised token st e Hk Hd).
      destruct (is_JoseError e); exact E.
Qed.

(** [set_clerk_session] turns [is_signed_in] on only with keys in the
    cache. *)
Lemma set_clerk_session_signed_in (token : string) (st : Store) :
  is_signed_in (self (snd (set_clerk_session token st))) = true ->
  is_signed_in (self st) = true \/ _jwt_public_keys (cls st) <> [].
Proof.
  destruct (_jwt_public_keys (cls st)) as [|k ks] eqn:E.
  - rewrite (set_clerk_session_skipped token st E). auto.
  - intros _. right. discriminate.
Qed.

(** In every store a session can be in, [is_signed_in] is true only if
    there are keys in the cache. *)
Lemma signed_in_needs_keys (st : Store) :
  reachable st ->
  is_signed_in (self st) = true -> _jwt_public_keys (cls st) <> [].
Proof.
  induction 1 as [c r | st ev Hr IH]; [discriminate|].
  destruct ev as [token| | | |b| |sk pk]; simpl.
  - rewrite set_clerk_session_keys. intros H.
    destruct (set_clerk_session_signed_in token st H); auto.
  - destruct st as [[] ? ?]. discriminate.
  - destruct st as [[] ? ?]. exact IH.
  - rewrite fetch_user_keys.
    pose proof (fetch_user_frame st) as [-> _]. exact IH.
  - destruct st as [[] [] ?]. exact IH.
  - rewrite keeps_self_jwt_public_keys. intros H. specialize (IH H).
    rewrite (jwt_public_keys_cached st IH). exact IH.
  - rewrite keeps_self_ClerkProvider_create, ClerkProvider_create_keys. exact IH.
Qed.

(** C3, amended: with no key in the cache [set_clerk_session] is skipped.
    In every store a session can be in, it returns normally, [is_signed_in]
    is false before and after the call, and no error is recorded:
    [auth_error] keeps the value it had. *)
Theorem set_clerk_session_no_keys_fails_closed (token : string) (st : Store) :
  reachable st ->
  _jwt_public_keys (cls st) = [] ->
  let st' := snd (set_clerk_session token st) in
  fst (set_clerk_session token st) = Returned tt /\
  is_signed_in (self st) = false /\
  is_signed_in (self st') = false /\
  auth_error (self st') = auth_error (self st).
Proof.
  intros Hr Hk.
  assert (Hs : is_signed_in (self st) = false).
  { destruct (is_signed_in (self st)) eqn:E; [|reflexivity].
    exfalso. exact (signed_in_needs_keys st Hr E Hk). }
  rewrite (set_clerk_session_skipped token st Hk). cbv zeta. simpl.
  repeat split; exact Hs.
Qed.

(** ** The fetch switch *)

Lemma fetch_user_switch (st : Store) :
  self__fetch_user (self (snd (fetch_user st))) = self__fetch_user (self st).
Proof.
  destruct (truthy (user_id (self st))) eqn:Hu.
  - rewrite (fetch_user_run st Hu). simpl.
    destruct (user_answer _ _ _); reflexivity.
  - rewrite (fetch_user_skip st Hu). reflexivity.
Qed.

Lemma set_clerk_session_switch (token : string) (st : Store) :
  self__fetch_user (self (snd (set_clerk_session token st)))
  = self__fetch_user (self st).
Proof.
  destruct (_jwt_public_keys (cls st)) as [|k ks] eqn:E.
  - rewrite (set_clerk_session_skipped token st E). reflexivity.
  - assert (Hk : _jwt_public_keys (cls st) <> []) by (rewrite E; discriminate).
    destruct (jwt_decode token (_jwt_public_keys (cls st))) as [d|e] eqn:Hd.
    + rewrite (set_clerk_session_decoded token st d Hk Hd). cbv zeta.
      destruct (self__fetch_user (self st)) eqn:Hf.
      * rewrite fetch_user_switch. exact Hf.
      * exact Hf.
    + rewrite (set_clerk_session_raised token st e Hk Hd).
      destruct (is_JoseError e); reflexivity.
Qed.

(** No event writes the switch that [set_clerk_session] reads: in every
    store a session can be in, it has the default of the class body. *)
Lemma reachable_switch_on (st : Store) :
  reachable st -> self__fetch_user (self st) = true.
Proof.
  induction 1 as [c r | st ev Hr IH]; [reflexivity|].
  destruct ev as [token| | | |b| |sk pk]; simpl.
  - rewrite set_clerk_session_switch. exact IH.
  - destruct st as [[] ? ?]. exact IH.
  - destruct st as [[] ? ?]. exact IH.
  - rewrite fetch_user_switch. exact IH.
  - destruct st as [[] [] ?]. exact IH.
  - pose proof (keeps_self_jwt_public_keys st) as Hs.
    destruct (jwt_public_keys st) as [o st']. simpl in *. rewrite Hs. exact IH.
  - pose proof (keeps_self_ClerkProvider_create sk pk st) as Hs.
    destruct (ClerkProvider_create sk pk st) as [o st']. simpl in *.
    rewrite Hs. exact IH.
Qed.

(** C8, as the code has it: [set_fetch_user_on_auth] writes the class
    attribute [_fetch_user], and [set_clerk_session] reads the switch on
    the instance, which the write does not reach.  In every store a
    session can be in, after fetch-on-auth was switched off, a token that
    decodes with a [sub] still makes [set_clerk_session] send the request
    for the user, and store the user when the server answers with one. *)
Theorem set_clerk_session_fetches_when_disabled
        (token : string) (st : Store) (decoded : gmap string pyval) :
  reachable st ->
  _jwt_public_keys (cls st) <> [] ->
  jwt_decode token (_jwt_public_keys (cls st)) = Returned decoded ->
  truthy (dict_get decoded "sub") = true ->
  let st0 := snd (set_fetch_user_on_auth false st) in
  let st' := snd (set_clerk_session token st0) in
  _fetch_user (cls st0) = false /\
  requested st' =
    (requested st ++ [user_url (cls st) (dict_get decoded "sub")])%list /\
  (forall u,
      user_answer (requested st) (cls st) (dict_get decoded "sub") = Returned u ->
      user (self st') = Some u).
Proof.
  intros Hr Hk Hd Ht. pose proof (reachable_switch_on st Hr) as Hf.
  cbv zeta. unfold set_fetch_user_on_auth, write_cls. cbn [snd].
  set (st0 := {| self := self st; cls := set__fetch_user false (cls st);
                 requested := requested st |}).
  assert (Hk0 : _jwt_public_keys (cls st0) <> []) by exact Hk.
  assert (Hd0 : jwt_decode token (_jwt_public_keys (cls st0)) = Returned decoded)
    by exact Hd.
  rewrite (set_clerk_session_decoded token st0 decoded Hk0 Hd0). cbv zeta.
  change (self st0) with (self st). rewrite Hf.
  set (st1 := {| self := signed_in_as decoded (self st); cls := cls st0;
                 requested := requested st0 |}).
  assert (Ht1 : truthy (user_id (self st1)) = true) by exact Ht.
  rewrite (fetch_user_run st1 Ht1).
  change (user_id (self st1)) with (dict_get decoded "sub").
  cbn [snd self cls requested]. split; [reflexivity|]. split; [reflexivity|].
  intros u Hu.
  change (user_answer (requested st1) (cls st1) (dict_get decoded "sub"))
    with (user_answer (requested st) (cls st) (dict_get decoded "sub")).
  rewrite Hu. reflexivity.
Qed.

(** ** Filling the key cache *)

Lemma resolved_secret_key_set_keys (ks : list pyval) (c : ClerkStateClass) :
  resolved_secret_key (set__jwt_public_keys ks c) = resolved_secret_key c.
Proof. reflexivity. Qed.

Lemma resolved_client_set_keys (ks : list pyval) (c : ClerkStateClass) :
  resolved_client (set__jwt_public_keys ks c) = resolved_client c.
Proof. reflexivity. Qed.

(** Reading the secret key twice gives the same key. *)
Lemma resolved_client_set_secret_key (c : ClerkStateClass) :
  resolved_client (set__secret_key (resolved_secret_key c) c) = resolved_client c.
Proof.
  unfold resolved_client, resolved_secret_key. simpl.
  destruct (_clerk_api_client c); [reflexivity|].
  destruct (_secret_key c); [reflexivity|].
  destruct (environ !! "CLERK_SECRET_KEY"); reflexivity.
Qed.


(** The second [if] of [jwt_public_keys] when the server fails. *)
Lemma jwt_public_keys_remote_step_raised (st : Store) (e : Exception) :
  truthy_opt (resolved_secret_key (cls st)) = true ->
  jwks_answer (requested st) (cls st) = Raised e ->
  bind secret_key (fun k =>
    if truthy_opt k then
      bind clerk_api_client (fun c =>
        bind (get_jwks c) (fun jwks =>
          write_cls (set__jwt_public_keys (keys jwks))))
    else ret tt) st
  = (Raised e,
     {| self := self st;
        cls := cls_with_client (set__secret_key (resolved_secret_key (cls st)) (cls st));
        requested :=
          requested st ++ [_get_url (resolved_client (cls st)) "/jwks"] |}).
Proof.
  intros Hs Ha.
  unfold bind at 1. rewrite secret_key_run, Hs.
  unfold bind at 1. rewrite clerk_api_client_run. cbn [cls self requested].
  rewrite resolved_client_set_secret_key.
  unfold jwks_answer in Ha. cbv zeta in Ha.
  unfold get_jwks. cbv zeta. py_unfold. simpl.
  destruct (requests_get _ _) as [r|msg].
  - rewrite Ha. reflexivity.
  - injection Ha as <-. reflexivity.
Qed.



(** * More of the client and of the class properties *)

(** ** [_handle_response] *)

(** What [_handle_response] gives, by the status code and the body: an
    object exactly when the status is outside 400..599 (a status of 600 or
    more raises nothing in [raise_for_status]) and the body is JSON that the
    model accepts; an [HTTPError] exactly for a status in 400..599, whatever
    the body; and otherwise a [ValueError] that quotes the body and names
    the model. *)
Theorem _handle_response_cases {A} (r : Response) (m : response_model A) :
  (forall obj,
      _handle_response json_loads r m = Returned obj <->
      (status_code r < 400 \/ 600 <= status_code r) /\
      exists data, json_loads (text r) = Some data /\ parse_obj m data = Some obj) /\
  (forall c,
      _handle_response json_loads r m = Raised (HTTPError c) <->
      c = status_code r /\ 400 <= status_code r < 600) /\
  (forall e,
      _handle_response json_loads r m = Raised e ->
      e = HTTPError (status_code r) \/
      e = ValueError ("Failed to parse response '" ++ text r
                      ++ "' as " ++ model_name m)).
Proof.
  unfold _handle_response, raise_for_status.
  destruct (Z.leb_spec 400 (status_code r)) as [Hlo|Hlo];
    [destruct (Z.ltb_spec (status_code r) 600) as [Hhi|Hhi]|]; simpl.
  - split; [|split].
    + intros obj. split; [discriminate|]. intros [[H|H] _]; lia.
    + intros c. split.
      * intros [= <-]. lia.
      * intros [-> _]. reflexivity.
    + intros e [= <-]. left. reflexivity.
  - assert (Hout : status_code r < 400 \/ 600 <= status_code r) by lia.
    destruct (json_loads (text r)) as [data|] eqn:Hj;
      [destruct (parse_obj m data) as [o|] eqn:Hp|];
      (split; [|split]);
      [ intros obj; split;
        [ intros [= <-]; split; [exact Hout|]; exists data; split; congruence
        | intros (_ & d & [= <-] & Hd); congruence ]
      | intros c; split; [discriminate | intros [_ ?]; lia]
      | discriminate
      | intros obj; split;
        [ discriminate | intros (_ & d & [= <-] & Hd); congruence ]
      | intros c; split; [discriminate | intros [_ ?]; lia]
      | intros e [= <-]; right; reflexivity
      | intros obj; split;
        [ discriminate | intros (_ & d & Hd & _); discriminate ]
      | intros c; split; [discriminate | intros [_ ?]; lia]
      | intros e [= <-]; right; reflexivity ].
  - assert (Hout : status_code r < 400 \/ 600 <= status_code r) by lia.
    destruct (json_loads (text r)) as [data|] eqn:Hj;
      [destruct (parse_obj m data) as [o|] eqn:Hp|];
      (split; [|split]);
      [ intros obj; split;
        [ intros [= <-]; split; [exact Hout|]; exists data; split; congruence
        | intros (_ & d & [= <-] & Hd); congruence ]
      | intros c; split; [discriminate | intros [_ ?]; lia]
      | discriminate
      | intros obj; split;
        [ discriminate | intros (_ & d & [= <-] & Hd); congruence ]
      | intros c; split; [discriminate | intros [_ ?]; lia]
      | intros e [= <-]; right; reflexivity
      | intros obj; split;
        [ discriminate | intros (_ & d & Hd & _); discriminate ]
      | intros c; split; [discriminate | intros [_ ?]; lia]
      | intros e [= <-]; right; reflexivity ].
Qed.

(** ** The static key list *)

Lemma split_comma_length (s : string) :
  length (split_comma s) = S (count_commas s).
Proof.
  induction s as [|c rest IH]; [reflexivity|].
  simpl. destruct (Ascii.eqb c ","); simpl.
  - rewrite IH. reflexivity.
  - destruct (split_comma rest); simpl in *; [discriminate | exact IH].
Qed.

Lemma loads_all_length (pieces : list string) (ks : list pyval) :
  loads_all pieces = Returned ks -> length ks = length pieces.
Proof.
  revert ks. induction pieces as [|p rest IH]; simpl; intros ks.
  - intros [= <-]. reflexivity.
  - destruct (json_loads p); [|discriminate].
    destruct (loads_all rest) as [vs|e]; [|discriminate].
    intros [= <-]. simpl. rewrite (IH vs eq_refl). reflexivity.
Qed.

(** [list(map(json.loads, pieces))] gives a list exactly when every piece
    is JSON, and then value by value in the order of the pieces; when it
    raises, it raises the [JSONDecodeError] of the first piece that is not
    JSON. *)
Theorem loads_all_cases (pieces : list string) :
  (forall ks,
      loads_all pieces = Returned ks <->
      Forall2 (fun p v => json_loads p = Some v) pieces ks) /\
  (forall e,
      loads_all pieces = Raised e ->
      exists before p after,
        pieces = (before ++ p :: after)%list /\
        e = JSONDecodeError p /\
        json_loads p = None /\
        Forall (fun q => json_loads q <> None) before).
Proof.
  induction pieces as [|p rest [IHr IHe]]; simpl.
  - split.
    + intros ks. split.
      * intros [= <-]. constructor.
      * intros H. inversion H. reflexivity.
    + discriminate.
  - destruct (json_loads p) as [v|] eqn:Hp.
    + destruct (loads_all rest) as [vs|e0] eqn:Hl.
      * split; [|discriminate].
        intros ks. split.
        -- intros [= <-]. constructor; [exact Hp|]. apply IHr. reflexivity.
        -- intros H. inversion H as [|p' v' rest' vs' Hpv Hrest]; subst.
           apply IHr in Hrest. injection Hrest as ->.
           rewrite Hp in Hpv. injection Hpv as ->. reflexivity.
      * split.
        -- intros ks. split; [discriminate|].
           intros H. inversion H as [|p' v' rest' vs' Hpv Hrest]; subst.
           apply IHr in Hrest. discriminate.
        -- intros e [= <-].
           destruct (IHe e0 eq_refl) as (b & q & a & -> & -> & Hq & Hb).
           exists (p :: b), q, a. repeat split; [exact Hq|].
           constructor; [congruence | exact Hb].
    + split.
      * intros ks. split; [discriminate|].
        intros H. inversion H as [|p' v' rest' vs' Hpv Hrest]; subst. congruence.
      * intros e [= <-]. exists [], p, rest. repeat split; [exact Hp | constructor].
Qed.

(** The first [if] of [jwt_public_keys] when there is no secret key: the
    static list is stored and returned. *)
Lemma jwt_public_keys_static_run (st : Store) (v : string) (static : list pyval) :
  _jwt_public_keys (cls st) = [] ->
  truthy_opt (resolved_secret_key (cls st)) = false ->
  environ !! "CLERK_JWT_PUBLIC_KEYS" = Some v ->
  loads_all (split_comma v) = Returned static ->
  jwt_public_keys st =
  (Returned static,
   {| self := self st;
      cls := set__secret_key (resolved_secret_key (cls st))
               (set__jwt_public_keys static (cls st));
      requested := requested st |}).
Proof.
  intros Hk Hs Hv Hl.
  unfold jwt_public_keys. unfold bind at 1, read_cls at 1. rewrite Hk.
  unfold bind at 1. unfold bind at 1. rewrite Hv, Hl.
  unfold bind at 1, lift at 1, write_cls at 1.
  unfold bind at 1. rewrite secret_key_run. cbn [cls self requested].
  rewrite resolved_secret_key_set_keys, Hs. reflexivity.
Qed.

(** The static list has one key more than [CLERK_JWT_PUBLIC_KEYS] has
    commas: the value is cut at every comma, also at a comma inside a JSON
    object, and each piece must be a JSON text of its own. *)
Theorem jwt_public_keys_static_count
        (st : Store) (v : string) (static : list pyval) :
  _jwt_public_keys (cls st) = [] ->
  truthy_opt (resolved_secret_key (cls st)) = false ->
  environ !! "CLERK_JWT_PUBLIC_KEYS" = Some v ->
  loads_all (split_comma v) = Returned static ->
  fst (jwt_public_keys st) = Returned static /\
  length static = S (count_commas v) /\
  Forall2 (fun p k => json_loads p = Some k) (split_comma v) static.
Proof.
  intros Hk Hs Hv Hl.
  rewrite (jwt_public_keys_static_run st v static Hk Hs Hv Hl).
  split; [reflexivity|]. split.
  - rewrite (loads_all_length _ _ Hl). apply split_comma_length.
  - revert static Hl. generalize (split_comma v) as pieces.
    induction pieces as [|p rest IH]; simpl; intros static.
    + intros [= <-]. constructor.
    + destruct (json_loads p) as [k|] eqn:Hp; [|discriminate].
      destruct (loads_all rest) as [ks|e]; [|discriminate].
      intros [= <-]. constructor; [exact Hp | apply IH; reflexivity].
Qed.

(** A static list with a piece that is not JSON: the property raises the
    [JSONDecodeError] at once, also when a secret key is configured; no
    request is sent and the store is as before. *)
Theorem jwt_public_keys_static_malformed (st : Store) (v : string) (e : Exception) :
  _jwt_public_keys (cls st) = [] ->
  environ !! "CLERK_JWT_PUBLIC_KEYS" = Some v ->
  loads_all (split_comma v) = Raised e ->
  jwt_public_keys st = (Raised e, st).
Proof.
  intros Hk Hv Hl.
  unfold jwt_public_keys. unfold bind at 1, read_cls at 1. rewrite Hk.
  unfold bind at 1. unfold bind at 1. rewrite Hv, Hl.
  unfold bind at 1, lift at 1. reflexivity.
Qed.

(** When the fetch of the key set fails (transport, status, body), the
    exception leaves the property, and the static list that was parsed
    before stays in the cache: a later read returns that list and sends no
    request. *)
Theorem jwt_public_keys_remote_failure
        (st : Store) (v : string) (static : list pyval) (e : Exception) :
  _jwt_public_keys (cls st) = [] ->
  environ !! "CLERK_JWT_PUBLIC_KEYS" = Some v ->
  loads_all (split_comma v) = Returned static ->
  truthy_opt (resolved_secret_key (cls st)) = true ->
  jwks_answer (requested st) (cls st) = Raised e ->
  let st' := snd (jwt_public_keys st) in
  fst (jwt_public_keys st) = Raised e /\
  _jwt_public_keys (cls st') = static /\
  self st' = self st /\
  (static <> [] -> jwt_public_keys st' = (Returned static, st')).
Proof.
  intros Hk Hv Hl Hs Ha.
  assert (Hrun : exists st2,
             jwt_public_keys st = (Raised e, st2) /\
             _jwt_public_keys (cls st2) = static /\ self st2 = self st).
  { unfold jwt_public_keys. unfold bind at 1, read_cls at 1. rewrite Hk.
    unfold bind at 1. unfold bind at 1. rewrite Hv, Hl.
    unfold bind at 1, lift at 1, write_cls at 1.
    rewrite (jwt_public_keys_remote_step_raised _ e) by assumption.
    eexists. split; [reflexivity|]. cbn [cls self].
    rewrite cls_with_client_keys. split; reflexivity. }
  destruct Hrun as (st2 & Hrun & Hk2 & Hself). rewrite Hrun. cbv zeta. simpl.
  repeat split; try assumption.
  intros Hne. rewrite jwt_public_keys_cached by (rewrite Hk2; exact Hne).
  rewrite Hk2. reflexivity.
Qed.

(** With neither source configured the property returns the empty list; no
    request is sent, the instance is untouched, and every token presented
    afterwards is skipped. *)
Theorem jwt_public_keys_nothing_configured (st : Store) (token : string) :
  _jwt_public_keys (cls st) = [] ->
  environ !! "CLERK_JWT_PUBLIC_KEYS" = None ->
  truthy_opt (resolved_secret_key (cls st)) = false ->
  let st' := snd (jwt_public_keys st) in
  fst (jwt_public_keys st) = Returned [] /\
  requested st' = requested st /\
  self st' = self st /\
  set_clerk_session token st' = (Returned tt, st').
Proof.
  intros Hk Hv Hs.
  assert (Hrun : jwt_public_keys st =
                 (Returned [],
                  {| self := self st;
                     cls := set__secret_key (resolved_secret_key (cls st)) (cls st);
                     requested := requested st |})).
  { unfold jwt_public_keys. unfold bind at 1, read_cls at 1. rewrite Hk.
    unfold bind at 1. unfold bind at 1. rewrite Hv. unfold ret at 1.
    unfold bind at 1. rewrite secret_key_run, Hs.
    unfold ret, read_cls. cbn [cls]. simpl. rewrite Hk. reflexivity. }
  rewrite Hrun. cbv zeta. cbn [fst snd self requested].
  repeat split. apply set_clerk_session_skipped. simpl. exact Hk.
Qed.

(** ** The memoized client and [ClerkProvider.create] *)

Lemma ClerkProvider_create_run (sk pk : option string) (st : Store) :
  let c1 := if truthy_opt sk then set__secret_key sk (cls st) else cls st in
  snd (ClerkProvider_create sk pk st) =
  {| self := self st;
     cls := set__secret_key (resolved_secret_key c1) c1;
     requested := requested st |}.
Proof.
  cbv zeta. unfold ClerkProvider_create. unfold bind at 1.
  destruct (truthy_opt sk); unfold write_cls, ret; unfold bind;
    rewrite secret_key_run; cbn [cls self requested];
    destruct (negb (truthy_opt (resolved_secret_key _)));
    try reflexivity;
    destruct (negb (truthy_opt _)); reflexivity.
Qed.

(** [ClerkProvider.create] returns exactly when a non-empty secret key
    (the prop, else the class attribute, else the environment) and a
    non-empty publishable key (the prop, else the environment) are at hand.
    Whether it returns or raises, the secret key it found is then the class
    attribute, and the instance, the key cache, the client and the request
    log are as before. *)
Theorem ClerkProvider_create_cases (sk pk : option string) (st : Store) :
  let secret := if truthy_opt sk then sk else resolved_secret_key (cls st) in
  let publishable :=
    if truthy_opt pk then pk else environ !! "CLERK_PUBLISHABLE_KEY" in
  let st' := snd (ClerkProvider_create sk pk st) in
  (fst (ClerkProvider_create sk pk st) = Returned tt <->
   truthy_opt secret = true /\ truthy_opt publishable = true) /\
  _secret_key (cls st') = secret /\
  self st' = self st /\
  _jwt_public_keys (cls st') = _jwt_public_keys (cls st) /\
  _clerk_api_client (cls st') = _clerk_api_client (cls st) /\
  requested st' = requested st.
Proof.
  cbv zeta. rewrite ClerkProvider_create_run. cbv zeta. cbn [self cls requested].
  split.
  - unfold ClerkProvider_create. unfold bind at 1.
    destruct (truthy_opt sk) eqn:Hsk; unfold write_cls, ret; unfold bind;
      rewrite secret_key_run; cbn [cls self requested].
    + assert (Hr : resolved_secret_key (set__secret_key sk (cls st)) = sk).
      { destruct sk; [reflexivity | discriminate]. }
      rewrite Hr, Hsk. simpl.
      destruct (truthy_opt pk) eqn:Hpk; simpl; rewrite ?Hpk; simpl;
        [|destruct (truthy_opt (environ !! "CLERK_PUBLISHABLE_KEY")); simpl];
        (split; intros H;
         [ first [discriminate H | split; reflexivity]
         | first [reflexivity | destruct H; discriminate] ]).
    + destruct (truthy_opt (resolved_secret_key (cls st))) eqn:Hs; simpl;
        [destruct (truthy_opt pk) eqn:Hpk; simpl; rewrite ?Hpk; simpl;
         [|destruct (truthy_opt (environ !! "CLERK_PUBLISHABLE_KEY")); simpl]|];
        (split; intros H;
         [ first [discriminate H | split; reflexivity]
         | first [reflexivity | destruct H; discriminate] ]).
  - destruct (truthy_opt sk) eqn:Hsk.
    + destruct sk; [|discriminate]. repeat split.
    + destruct st as [s [ks k a f] r]. simpl.
      unfold resolved_secret_key. simpl. destruct k; repeat split.
Qed.

(** The client is made once.  A second read of the property returns the
    client of the first and changes nothing, and so does a read after a
    [ClerkProvider.create], whatever secret key that one brings: the
    client keeps the key it was made with.  Made when no secret key was
    configured, it sends [Bearer None]. *)
Theorem clerk_api_client_made_once (st : Store) (sk pk : option string) :
  let st1 := snd (clerk_api_client st) in
  let st2 := snd (ClerkProvider_create sk pk st1) in
  clerk_api_client st1 = (fst (clerk_api_client st), st1) /\
  fst (clerk_api_client st2) = fst (clerk_api_client st) /\
  (_clerk_api_client (cls st) = None ->
   resolved_secret_key (cls st) = None ->
   exists c, fst (clerk_api_client st2) = Returned c /\
             client_headers c !! "Authorization" = Some "Bearer None").
Proof.
  cbv zeta. rewrite ClerkProvider_create_run. cbv zeta.
  rewrite !clerk_api_client_run. cbn [fst snd self cls requested].
  assert (Hc : _clerk_api_client (cls_with_client (cls st))
               = Some (resolved_client (cls st))).
  { unfold cls_with_client, resolved_client.
    destruct (_clerk_api_client (cls st)) eqn:E; [exact E | reflexivity]. }
  assert (H1 : cls_with_client (cls_with_client (cls st)) = cls_with_client (cls st)).
  { unfold cls_with_client at 1. rewrite Hc. reflexivity. }
  assert (H2 : forall c, _clerk_api_client c = Some (resolved_client (cls st)) ->
                         resolved_client c = resolved_client (cls st)).
  { intros c E. unfold resolved_client at 1. rewrite E. reflexivity. }
  split; [|split].
  - rewrite resolved_client_with_client, H1. reflexivity.
  - f_equal. apply H2. destruct (truthy_opt sk); simpl; exact Hc.
  - intros Hn Hs. exists (resolved_client (cls st)). split.
    + f_equal. apply H2. destruct (truthy_opt sk); simpl; exact Hc.
    + unfold resolved_client. rewrite Hn, Hs. reflexivity.
Qed.

(** ** More about the handlers *)

(** [fetch_user] touches nothing of the session but [user]: it never signs
    a session in or out and records no error; it leaves the key cache and
    the fetch switch alone, sends at most one request, and when it does not
    return normally [user] keeps the value it had. *)
Theorem fetch_user_touches_only_user (st : Store) :
  let st' := snd (fetch_user st) in
  is_signed_in (self st') = is_signed_in (self st) /\
  auth_error (self st') = auth_error (self st) /\
  claims (self st') = claims (self st) /\
  user_id (self st') = user_id (self st) /\
  _jwt_public_keys (cls st') = _jwt_public_keys (cls st) /\
  _fetch_user (cls st') = _fetch_user (cls st) /\
  self__fetch_user (self st') = self__fetch_user (self st) /\
  (requested st' = requested st \/
   requested st' =
     (requested st ++ [user_url (cls st) (user_id (self st))])%list) /\
  (fst (fetch_user st) <> Returned tt -> user (self st') = user (self st)).
Proof.
  cbv zeta. destruct (truthy (user_id (self st))) eqn:Hu.
  - rewrite (fetch_user_run st Hu). cbn [fst snd self cls requested].
    rewrite cls_with_client_keys, cls_with_client_fetch_user.
    destruct (user_answer _ _) as [u|e]; simpl; repeat split; auto.
    intros H. contradiction H. reflexivity.
  - rewrite (fetch_user_skip st Hu). simpl. repeat split; auto.
Qed.

(** An exception of [jwt.decode] that is no [JoseError] (authlib raises a
    [ValueError] for a key set it cannot use) leaves [set_clerk_session];
    nothing is recorded and the store is as before. *)
Theorem set_clerk_session_other_exception_escapes
        (token : string) (st : Store) (e : Exception) :
  _jwt_public_keys (cls st) <> [] ->
  jwt_decode token (_jwt_public_keys (cls st)) = Raised e ->
  is_JoseError e = false ->
  set_clerk_session token st = (Raised e, st).
Proof.
  intros Hk Hd He.
  rewrite (set_clerk_session_raised token st e Hk Hd), He. reflexivity.
Qed.

(** A rejected token followed by [clear_clerk_auth_error] leaves no trace:
    from a store without an error on record, the two calls end in the store
    they started from. *)
Theorem rejected_token_then_clear_error
        (token : string) (st : Store) (e : Exception) :
  _jwt_public_keys (cls st) <> [] ->
  jwt_decode token (_jwt_public_keys (cls st)) = Raised e ->
  is_JoseError e = true ->
  auth_error (self st) = None ->
  snd (clear_clerk_auth_error (snd (set_clerk_session token st))) = st.
Proof.
  intros Hk Hd He Ha.
  rewrite (set_clerk_session_raised token st e Hk Hd), He.
  destruct st as [[si ae cl uid u] c r]. simpl in Ha. subst ae. reflexivity.
Qed.

(** A token without a [sub] claim signs the session in with [user_id]
    [None]; whatever the fetch switch says, no request is sent and [user] is
    left as it was. *)
Theorem set_clerk_session_without_sub
        (token : string) (st : Store) (decoded : gmap string pyval) :
  _jwt_public_keys (cls st) <> [] ->
  jwt_decode token (_jwt_public_keys (cls st)) = Returned decoded ->
  decoded !! "sub" = None ->
  let st' := snd (set_clerk_session token st) in
  fst (set_clerk_session token st) = Returned tt /\
  is_signed_in (self st') = true /\
  claims (self st') = Some decoded /\
  user_id (self st') = PNone /\
  user (self st') = user (self st) /\
  requested st' = requested st /\
  cls st' = cls st.
Proof.
  intros Hk Hd Hsub.
  rewrite (set_clerk_session_decoded token st decoded Hk Hd). cbv zeta.
  assert (Hg : dict_get decoded "sub" = PNone)
    by (unfold dict_get; rewrite Hsub; reflexivity).
  destruct (self__fetch_user (self st)).
  - rewrite fetch_user_skip by (simpl; rewrite Hg; reflexivity).
    simpl. rewrite Hg. repeat split.
  - simpl. rewrite Hg. repeat split.
Qed.

(** The run of a successful sign-in that fetches the user. *)
Lemma set_clerk_session_fetch_run
        (token : string) (st : Store) (decoded : gmap string pyval) (u : User) :
  _jwt_public_keys (cls st) <> [] ->
  jwt_decode token (_jwt_public_keys (cls st)) = Returned decoded ->
  self__fetch_user (self st) = true ->
  truthy (dict_get decoded "sub") = true ->
  user_answer (requested st) (cls st) (dict_get decoded "sub") = Returned u ->
  set_clerk_session token st =
  (Returned tt,
   {| self := {| is_signed_in := true; auth_error := auth_error (self st);
                 claims := Some decoded; user_id := dict_get decoded "sub";
                 user := Some u;
                 self__fetch_user := self__fetch_user (self st) |};
      cls := cls_with_client (cls st);
      requested := requested st ++ [user_url (cls st) (dict_get decoded "sub")] |}).
Proof.
  intros Hk Hd Hf Ht Ha.
  rewrite (set_clerk_session_decoded token st decoded Hk Hd). cbv zeta.
  rewrite Hf.
  set (st1 := {| self := signed_in_as decoded (self st); cls := cls st;
                 requested := requested st |}).
  assert (Ht1 : truthy (user_id (self st1)) = true) by exact Ht.
  rewrite (fetch_user_run st1 Ht1).
  change (user_id (self st1)) with (dict_get decoded "sub").
  change (cls st1) with (cls st). change (requested st1) with (requested st).
  rewrite Ha. unfold st1, set_user, signed_in_as, set_user_id, set_claims,
    set_is_signed_in. cbn. rewrite Hf. reflexivity.
Qed.

Lemma cls_with_client_client (c : ClerkStateClass) :
  _clerk_api_client (cls_with_client c) = Some (resolved_client c).
Proof.
  unfold cls_with_client, resolved_client.
  destruct (_clerk_api_client c) eqn:E; [exact E | reflexivity].
Qed.

(** The whole of a successful sign-in with the fetch switch of the
    instance on: the token decodes, the server answers with a user, and the
    call returns with the session signed in, the claims, the user id and
    the user stored, the error on record untouched, the key cache as it
    was, the client that sent the request kept in the class, and one
    request sent, for that user. *)
Theorem set_clerk_session_fetches_user
        (token : string) (st : Store) (decoded : gmap string pyval) (u : User) :
  _jwt_public_keys (cls st) <> [] ->
  jwt_decode token (_jwt_public_keys (cls st)) = Returned decoded ->
  self__fetch_user (self st) = true ->
  truthy (dict_get decoded "sub") = true ->
  user_answer (requested st) (cls st) (dict_get decoded "sub") = Returned u ->
  let st' := snd (set_clerk_session token st) in
  fst (set_clerk_session token st) = Returned tt /\
  is_signed_in (self st') = true /\
  claims (self st') = Some decoded /\
  user_id (self st') = dict_get decoded "sub" /\
  user (self st') = Some u /\
  auth_error (self st') = auth_error (self st) /\
  _jwt_public_keys (cls st') = _jwt_public_keys (cls st) /\
  _clerk_api_client (cls st') = Some (resolved_client (cls st)) /\
  requested st' =
    (requested st ++ [user_url (cls st) (dict_get decoded "sub")])%list.
Proof.
  intros Hk Hd Hf Ht Ha.
  rewrite (set_clerk_session_fetch_run token st decoded u Hk Hd Hf Ht Ha).
  cbv zeta. cbn [fst snd self cls requested].
  rewrite cls_with_client_keys, cls_with_client_client.
  repeat split.
Qed.

(** Signing out after a sign-in that fetched the user keeps the user: the
    session is signed out, without claims and without error, and [user]
    and [user_id] still hold the user who signed in. *)
Theorem sign_in_then_sign_out_keeps_user
        (token : string) (st : Store) (decoded : gmap string pyval) (u : User) :
  _jwt_public_keys (cls st) <> [] ->
  jwt_decode token (_jwt_public_keys (cls st)) = Returned decoded ->
  self__fetch_user (self st) = true ->
  truthy (dict_get decoded "sub") = true ->
  user_answer (requested st) (cls st) (dict_get decoded "sub") = Returned u ->
  let st' := snd (clear_clerk_session (snd (set_clerk_session token st))) in
  is_signed_in (self st') = false /\
  claims (self st') = None /\
  auth_error (self st') = None /\
  user (self st') = Some u /\
  user_id (self st') = dict_get decoded "sub".
Proof.
  intros Hk Hd Hf Ht Ha.
  rewrite (set_clerk_session_fetch_run token st decoded u Hk Hd Hf Ht Ha).
  cbv zeta. simpl. repeat split.
Qed.

Lemma cls_with_client_idem (c : ClerkStateClass) :
  cls_with_client (cls_with_client c) = cls_with_client c.
Proof.
  unfold cls_with_client at 1.
  destruct (_clerk_api_client (cls_with_client c)) eqn:E; [reflexivity|].
  unfold cls_with_client in E. destruct (_clerk_api_client c) eqn:E'.
  - congruence.
  - discriminate.
Qed.

(** Presenting the same token again verifies it again and fetches the user
    again: [is_signed_in], [claims], [user_id], [auth_error] and the class
    end as they were after the first call, [user] is what the server answers
    to the second request (the record may have changed in between), and the
    log has the same request once more. *)
Theorem set_clerk_session_again
        (token : string) (st : Store) (decoded : gmap string pyval) (u u2 : User) :
  _jwt_public_keys (cls st) <> [] ->
  jwt_decode token (_jwt_public_keys (cls st)) = Returned decoded ->
  self__fetch_user (self st) = true ->
  truthy (dict_get decoded "sub") = true ->
  user_answer (requested st) (cls st) (dict_get decoded "sub") = Returned u ->
  let st1 := snd (set_clerk_session token st) in
  user_answer (requested st1) (cls st1) (dict_get decoded "sub") = Returned u2 ->
  let st2 := snd (set_clerk_session token st1) in
  fst (set_clerk_session token st1) = Returned tt /\
  user (self st1) = Some u /\
  user (self st2) = Some u2 /\
  is_signed_in (self st2) = is_signed_in (self st1) /\
  claims (self st2) = claims (self st1) /\
  user_id (self st2) = user_id (self st1) /\
  auth_error (self st2) = auth_error (self st1) /\
  cls st2 = cls st1 /\
  requested st2 =
    (requested st1 ++ [user_url (cls st) (dict_get decoded "sub")])%list.
Proof.
  intros Hk Hd Hf Ht Ha.
  rewrite (set_clerk_session_fetch_run token st decoded u Hk Hd Hf Ht Ha).
  cbv zeta. cbn [snd].
  match goal with |- context [set_clerk_session token ?s] => set (st1 := s) end.
  intros Ha1.
  assert (Hk1 : _jwt_public_keys (cls st1) <> [])
    by (unfold st1; cbn [cls]; rewrite cls_with_client_keys; exact Hk).
  assert (Hd1 : jwt_decode token (_jwt_public_keys (cls st1)) = Returned decoded)
    by (unfold st1; cbn [cls]; rewrite cls_with_client_keys; exact Hd).
  assert (Hf1 : self__fetch_user (self st1) = true) by exact Hf.
  rewrite (set_clerk_session_fetch_run token st1 decoded u2 Hk1 Hd1 Hf1 Ht Ha1).
  unfold st1. cbn [fst snd self cls requested auth_error is_signed_in claims
                   user_id user].
  rewrite cls_with_client_idem.
  unfold user_url. rewrite resolved_client_with_client.
  repeat split.
Qed.

(** ** What holds in every store a session can be in *)

Lemma set_clerk_session_self (token : string) (st : Store) :
  let s' := self (snd (set_clerk_session token st)) in
  s' = self st \/
  (exists e, s' = set_auth_error (Some e) (self st)) \/
  (_jwt_public_keys (cls st) <> [] /\
   exists d, is_signed_in s' = true /\ claims s' = Some d /\
             user_id s' = dict_get d "sub").
Proof.
  cbv zeta. destruct (_jwt_public_keys (cls st)) as [|k ks] eqn:E.
  - rewrite (set_clerk_session_skipped token st E). left. reflexivity.
  - assert (Hk : _jwt_public_keys (cls st) <> []) by (rewrite E; discriminate).
    destruct (jwt_decode token (_jwt_public_keys (cls st))) as [d|e] eqn:Hd.
    + right. right. split; [discriminate|]. exists d.
      pose proof (set_clerk_session_decoded_vars token st d Hk Hd) as H.
      cbv zeta in H. tauto.
    + rewrite (set_clerk_session_raised token st e Hk Hd).
      destruct (is_JoseError e).
      * right. left. exists e. reflexivity.
      * left. reflexivity.
Qed.

(** In every store a session can be in: [is_signed_in] is true exactly when
    there are claims, the claims were decoded with keys in the cache, and
    [user_id] is their [sub] entry. *)
Theorem reachable_session_consistent (st : Store) :
  reachable st ->
  (is_signed_in (self st) = true <-> claims (self st) <> None) /\
  (forall d, claims (self st) = Some d -> user_id (self st) = dict_get d "sub") /\
  (is_signed_in (self st) = true -> _jwt_public_keys (cls st) <> []).
Proof.
  induction 1 as [c r | st ev Hr (IH1 & IH2 & IH3)].
  - simpl. repeat split; try discriminate. intros H. contradiction H. reflexivity.
  - destruct ev as [token| | | |b| |sk pk]; simpl.
    + rewrite set_clerk_session_keys.
      destruct (set_clerk_session_self token st) as [E | [[e E] | (Hk & d & H1 & H2 & H3)]];
        cbv zeta in *.
      * rewrite E. auto.
      * rewrite E. destruct (self st); simpl in *. auto.
      * rewrite H1, H2, H3. repeat split; auto; try discriminate.
        intros d' [= <-]. reflexivity.
    + destruct st as [[] ? ?]. simpl. repeat split; try discriminate.
      intros H. contradiction H. reflexivity.
    + destruct st as [[] ? ?]. simpl in *. auto.
    + rewrite fetch_user_keys.
      pose proof (fetch_user_frame st) as (-> & _ & -> & ->). auto.
    + destruct st as [[] [] ?]. simpl in *. auto.
    + pose proof (keeps_self_jwt_public_keys st) as Hs.
      pose proof (jwt_public_keys_cached st) as Hc.
      destruct (jwt_public_keys st) as [o st']. simpl in *. rewrite Hs.
      split; [exact IH1|]. split; [exact IH2|].
      intros H. specialize (IH3 H). specialize (Hc IH3).
      injection Hc as _ ->. exact IH3.
    + pose proof (keeps_self_ClerkProvider_create sk pk st) as Hs.
      pose proof (ClerkProvider_create_keys sk pk st) as Hk.
      destruct (ClerkProvider_create sk pk st) as [o st']. simpl in *.
      rewrite Hs, Hk. auto.
Qed.

Lemma handle_keeps_keys (ev : event) (st : Store) :
  _jwt_public_keys (cls st) <> [] \/ ev <> ReadJwtPublicKeys ->
  _jwt_public_keys (cls (handle ev st)) = _jwt_public_keys (cls st).
Proof.
  intros H. destruct ev as [token| | | |b| |sk pk]; simpl.
  - apply set_clerk_session_keys.
  - destruct st as [[] ? ?]. reflexivity.
  - destruct st as [[] ? ?]. reflexivity.
  - apply fetch_user_keys.
  - destruct st as [[] [] ?]. reflexivity.
  - destruct H as [H|H]; [|congruence].
    rewrite (jwt_public_keys_cached st H). reflexivity.
  - apply ClerkProvider_create_keys.
Qed.

(** The key cache is filled once: keys that are in the cache stay there,
    the same keys, whatever happens to the session afterwards.  There is no
    refresh. *)
Theorem key_cache_never_refreshed (evs : list event) (st : Store) :
  _jwt_public_keys (cls st) <> [] ->
  _jwt_public_keys (cls (run_events evs st)) = _jwt_public_keys (cls st).
Proof.
  revert st. induction evs as [|ev evs IH]; intros st Hk; [reflexivity|].
  unfold run_events in *. simpl.
  assert (He : _jwt_public_keys (cls (handle ev st)) = _jwt_public_keys (cls st))
    by (apply handle_keeps_keys; left; exact Hk).
  rewrite IH by (rewrite He; exact Hk). exact He.
Qed.

(** No handler fills the key cache: [set_clerk_session] tests the class
    attribute and never reads the property.  From a signed-out session with
    an empty cache, events other than a read of the property
    [jwt_public_keys] leave the cache empty and the session signed out,
    whatever tokens are presented. *)
Theorem handlers_never_fill_key_cache (evs : list event) (st : Store) :
  Forall (fun ev => ev <> ReadJwtPublicKeys) evs ->
  _jwt_public_keys (cls st) = [] ->
  is_signed_in (self st) = false ->
  _jwt_public_keys (cls (run_events evs st)) = [] /\
  is_signed_in (self (run_events evs st)) = false.
Proof.
  intros Hevs. revert st.
  induction Hevs as [|ev evs Hev _ IH]; intros st Hk Hs; [split; assumption|].
  unfold run_events in *. simpl. apply IH.
  - rewrite handle_keeps_keys by (right; exact Hev). exact Hk.
  - destruct ev as [token| | | |b| |sk pk]; simpl.
    + rewrite (set_clerk_session_skipped token st Hk). exact Hs.
    + destruct st as [[] ? ?]. reflexivity.
    + destruct st as [[] ? ?]. exact Hs.
    + pose proof (fetch_user_frame st) as (-> & _). exact Hs.
    + destruct st as [[] [] ?]. exact Hs.
    + congruence.
    + rewrite keeps_self_ClerkProvider_create. exact Hs.
Qed.

End Session.

Arguments is_signed_in {User} _.
Arguments auth_error {User} _.
Arguments claims {User} _.
Arguments user_id {User} _.
Arguments user {User} _.
Arguments self__fetch_user {User} _.
Arguments mkVars {User} _ _ _ _ _ _.
Arguments ClerkState_init {User}.
Arguments self {User} _.
Arguments cls {User} _.
Arguments requested {User} _.
Arguments mkStore {User} _ _ _.

(** * A small deployment

    One concrete world to run the handlers in: a server that knows the user
    [user_1] and publishes the key [K2], and tokens that authlib decodes
    with the key [K1].  Each table agrees with the real function on the
    texts that occur below. *)

Definition dq : string := String (Ascii.ascii_of_nat 34) EmptyString.

(** JSON texts: a string, an entry of an object, an object. *)
Definition json_str (s : string) : string := dq ++ s ++ dq.

Definition json_field (k v : string) : string := json_str k ++ ": " ++ v.

Fixpoint json_fields (fields : list string) : string :=
  match fields with
  | [] => EmptyString
  | [f] => f
  | f :: rest => f ++ ", " ++ json_fields rest
  end.

Definition json_obj (fields : list string) : string :=
  "{" ++ json_fields fields ++ "}".

(** The JSON text of an object with one string entry. *)
Definition json_entry (k v : string) : string :=
  json_obj [json_field k (json_str v)].

(** [K1] is a key as the static list can hold it (a JSON text without a
    comma); [K2] is a key as the server publishes it, with the five fields
    of the class [Key]. *)
Definition K1 : pyval := PDict [("kid", PStr "K1")].
Definition K2 : pyval :=
  PDict [("kty", PStr "RSA"); ("use", PStr "sig"); ("kid", PStr "K2");
         ("n", PStr "0vx7agoebGcQ"); ("e", PStr "AQAB")].

Definition K1_text : string := json_entry "kid" "K1".
Definition K2_text : string :=
  json_obj [json_field "kty" (json_str "RSA"); json_field "use" (json_str "sig");
            json_field "kid" (json_str "K2");
            json_field "n" (json_str "0vx7agoebGcQ");
            json_field "e" (json_str "AQAB")].
Definition jwks_text : string :=
  json_obj [json_field "keys" ("[" ++ K2_text ++ "]")].

(** The document of [user_1]: the fifteen fields that the class [User]
    requires, and the optional [first_name] when the user has one. *)
Definition user_1_doc (first_name : option string) : list (string * pyval) :=
  [("id", PStr "user_1"); ("object", PStr "user")] ++
  match first_name with Some n => [("first_name", PStr n)] | None => [] end ++
  [("has_image", PBool false); ("public_metadata", PDict []);
   ("unsafe_metadata", PDict []); ("email_addresses", PList []);
   ("phone_numbers", PList []); ("web3_wallets", PList []);
   ("saml_accounts", PList []); ("password_enabled", PBool true);
   ("two_factor_enabled", PBool false); ("totp_enabled", PBool false);
   ("backup_code_enabled", PBool false); ("banned", PBool false);
   ("locked", PBool false)].

Definition user_1_json (first_name : option string) : string :=
  json_obj
    ([json_field "id" (json_str "user_1"); json_field "object" (json_str "user")] ++
     match first_name with
     | Some n => [json_field "first_name" (json_str n)]
     | None => []
     end ++
     [json_field "has_image" "false"; json_field "public_metadata" "{}";
      json_field "unsafe_metadata" "{}"; json_field "email_addresses" "[]";
      json_field "phone_numbers" "[]"; json_field "web3_wallets" "[]";
      json_field "saml_accounts" "[]"; json_field "password_enabled" "true";
      json_field "two_factor_enabled" "false"; json_field "totp_enabled" "false";
      json_field "backup_code_enabled" "false"; json_field "banned" "false";
      json_field "locked" "false"]).

Definition user_1_text : string := user_1_json None.
Definition user_1_Ann_text : string := user_1_json (Some "Ann").

Definition ex_json_loads (s : string) : option pyval :=
  if String.eqb s K1_text then Some K1
  else if String.eqb s user_1_text then Some (PDict (user_1_doc None))
  else if String.eqb s user_1_Ann_text then Some (PDict (user_1_doc (Some "Ann")))
  else if String.eqb s jwks_text then Some (PDict [("keys", PList [K2])])
  else if String.eqb s "{}" then Some (PDict [])
  else None.

Fixpoint assoc (k : string) (d : list (string * pyval)) : option pyval :=
  match d with
  | [] => None
  | (k', v) :: rest => if String.eqb k k' then Some v else assoc k rest
  end.

Definition is_str (o : option pyval) : bool :=
  match o with Some (PStr _) => true | _ => false end.
Definition is_bool (o : option pyval) : bool :=
  match o with Some (PBool _) => true | _ => false end.
Definition is_dict (o : option pyval) : bool :=
  match o with Some (PDict _) => true | _ => false end.
Definition is_empty_list (o : option pyval) : bool :=
  match o with Some (PList []) => true | _ => false end.

(** A user record, cut down to its [id] and [first_name]. *)
Record ex_User : Type := mkUser { id : string; first_name : option string }.

(** The required fields of the class [User], by their types. *)
Definition User_str_fields : list string := ["id"; "object"].
Definition User_bool_fields : list string :=
  ["has_image"; "password_enabled"; "two_factor_enabled"; "totp_enabled";
   "backup_code_enabled"; "banned"; "locked"].
Definition User_dict_fields : list string :=
  ["public_metadata"; "unsafe_metadata"].
Definition User_list_fields : list string :=
  ["email_addresses"; "phone_numbers"; "web3_wallets"; "saml_accounts"].

Definition mentions (names : list string) (k : string) : bool :=
  existsb (String.eqb k) names.

(** [User.parse_obj] on the documents used here.  It accepts a dictionary
    when every required field is there with a value of its type (the lists
    of nested records must be empty), [first_name] is a string if present,
    and there is no other entry; pydantic accepts all of these. *)
Definition ex_User_model : response_model ex_User :=
  {| model_name := "User";
     parse_obj := fun v =>
       match v with
       | PDict d =>
           if forallb (fun k => is_str (assoc k d)) User_str_fields
              && forallb (fun k => is_bool (assoc k d)) User_bool_fields
              && forallb (fun k => is_dict (assoc k d)) User_dict_fields
              && forallb (fun k => is_empty_list (assoc k d)) User_list_fields
              && forallb (fun kv =>
                            mentions (User_str_fields ++ User_bool_fields ++
                                      User_dict_fields ++ User_list_fields)
                                     (fst kv)
                            || (String.eqb (fst kv) "first_name"
                                && is_str (Some (snd kv)))) d
           then match assoc "id" d with
                | Some (PStr i) =>
                    Some (mkUser i match assoc "first_name" d with
                                   | Some (PStr n) => Some n
                                   | _ => None
                                   end)
                | _ => None
                end
           else None
       | _ => None
       end |}.

(** [Key.parse_obj] followed by [.dict()]: the five fields of the class
    [Key], each a string. *)
Definition Key_fields : list string := ["kty"; "use"; "kid"; "n"; "e"].

Definition ex_Key_dict (v : pyval) : option pyval :=
  match v with
  | PDict d =>
      if forallb (fun k => is_str (assoc k d)) Key_fields
         && forallb (fun kv => mentions Key_fields (fst kv)) d
      then Some (PDict (map (fun k => (k, default PNone (assoc k d))) Key_fields))
      else None
  | _ => None
  end.

Fixpoint ex_Key_dicts (l : list pyval) : option (list pyval) :=
  match l with
  | [] => Some []
  | v :: rest =>
      match ex_Key_dict v, ex_Key_dicts rest with
      | Some k, Some ks => Some (k :: ks)
      | _, _ => None
      end
  end.

(** [JWKSResponse.parse_obj] on the documents used here: a dictionary with
    a list of keys under [keys] and no other entry. *)
Definition ex_JWKS_model : response_model JWKSResponse :=
  {| model_name := "JWKSResponse";
     parse_obj := fun v =>
       match v with
       | PDict [("keys", PList l)] =>
           match ex_Key_dicts l with
           | Some ks => Some (mkJWKS ks)
           | None => None
           end
       | _ => None
       end |}.

Definition ex_py_format (v : pyval) : string :=
  match v with
  | PStr s => s
  | PNone => "None"
  | PBool true => "True"
  | PBool false => "False"
  | _ => "?"
  end.

(** The server: it knows [user_1] and its key set, and answers 404 to
    everything else, whatever was requested before. *)
Definition ex_server (log : list string) (url : string)
           (headers : gmap string string) : transport :=
  if String.eqb url (BASE_URL ++ "/users/user_1")
  then Answered (mkResponse 200 user_1_text)
  else if String.eqb url (BASE_URL ++ "/jwks")
  then Answered (mkResponse 200 jwks_text)
  else Answered (mkResponse 404 "{}").

(** The same server when [user_1] takes the first name Ann after the first
    request. *)
Definition ex_server_renaming (log : list string) (url : string)
           (headers : gmap string string) : transport :=
  match log with
  | [] => ex_server log url headers
  | _ :: _ =>
      if String.eqb url (BASE_URL ++ "/users/user_1")
      then Answered (mkResponse 200 user_1_Ann_text)
      else ex_server log url headers
  end.

Definition token_1 : string := "header.user_1.signature".
Definition token_2 : string := "header.user_2.signature".

(** Both tokens expired at 1700000000. *)
Definition claims_1 : gmap string pyval :=
  <["sub" := PStr "user_1"]> (<["exp" := PInt 1700000000]> ∅).
Definition claims_2 : gmap string pyval :=
  <["sub" := PStr "user_2"]> (<["exp" := PInt 1700000000]> ∅).

Definition not_a_token : Exception :=
  JoseError DecodeError "Invalid input segments length".

Definition ex_jwt_decode (token : string) (ks : list pyval)
  : outcome (gmap string pyval) :=
  if String.eqb token token_1 then Returned claims_1
  else if String.eqb token token_2 then Returned claims_2
  else Raised not_a_token.

Definition env_secret : gmap string string :=
  <["CLERK_SECRET_KEY" := "sk_test_123"]> ∅.
Definition env_both : gmap string string :=
  <["CLERK_JWT_PUBLIC_KEYS" := K1_text]> env_secret.

Definition ex_set_clerk_session : string -> Py ex_User unit :=
  set_clerk_session ex_User ex_User_model ex_JWKS_model ex_json_loads
    ex_py_format env_secret ex_server ex_jwt_decode.

Definition ex_fetch_user : Py ex_User unit :=
  fetch_user ex_User ex_User_model ex_json_loads ex_py_format env_secret ex_server.

Definition ex_jwt_public_keys (env : gmap string string) : Py ex_User (list pyval) :=
  jwt_public_keys ex_User ex_JWKS_model ex_json_loads env ex_server.

(** A class that holds the key [K1], with the class attribute
    [_fetch_user] as given. *)
Definition class_with_keys (fetch : bool) : ClerkStateClass :=
  {| _jwt_public_keys := [K1]; _secret_key := None;
     _clerk_api_client := None; _fetch_user := fetch |}.

Definition new_session (c : ClerkStateClass) : Store ex_User :=
  {| self := ClerkState_init; cls := c; requested := [] |}.

(** * The handlers run in this deployment *)

(** C1 at work: [token_1] expired at 1700000000 and is presented at
    1800000000 to a new session; it signs the session in. *)
Lemma expired_token_signs_in :
  let st := new_session (class_with_keys true) in
  let st' := snd (ex_set_clerk_session token_1 st) in
  is_signed_in (self st') = true /\
  claims (self st') = Some claims_1 /\
  auth_error (self st') = auth_error (self st).
Proof.
  apply (set_clerk_session_expired_signs_in
           ex_User ex_User_model ex_JWKS_model ex_json_loads ex_py_format
           env_secret ex_server ex_jwt_decode
           token_1 (new_session (class_with_keys true)) claims_1
           1700000000 1800000000).
  - discriminate.
  - reflexivity.
  - reflexivity.
  - reflexivity.
Defined.

(** C2 fails on a session that is signed in: a text that is no token is
    presented after [token_1] was accepted, [jwt.decode] raises, and the
    session stays signed in with the claims of [token_1]. *)
Lemma failed_token_keeps_session_signed_in :
  let st := snd (ex_set_clerk_session token_1 (new_session (class_with_keys true))) in
  let st' := snd (ex_set_clerk_session "garbage" st) in
  ex_jwt_decode "garbage" (_jwt_public_keys (cls st)) = Raised not_a_token /\
  is_signed_in (self st') = true /\
  ~ (is_signed_in (self st') = false /\
     claims (self st') = None /\
     auth_error (self st') = Some not_a_token).
Proof.
  cbv zeta. split; [reflexivity|]. split; [reflexivity|].
  intros [H _]. vm_compute in H. discriminate H.
Qed.

(** C2, amended, at work: the same text presented to a new session. *)
Lemma failed_token_only_sets_error :
  let st := new_session (class_with_keys true) in
  let st' := snd (ex_set_clerk_session "garbage" st) in
  fst (ex_set_clerk_session "garbage" st) = Returned tt /\
  auth_error (self st') = Some not_a_token /\
  is_signed_in (self st') = is_signed_in (self st) /\
  claims (self st') = claims (self st) /\
  user_id (self st') = user_id (self st) /\
  user (self st') = user (self st) /\
  cls st' = cls st /\
  requested st' = requested st.
Proof.
  apply (set_clerk_session_failure_only_sets_error
           ex_User ex_User_model ex_JWKS_model ex_json_loads ex_py_format
           env_secret ex_server ex_jwt_decode
           "garbage" (new_session (class_with_keys true)) not_a_token).
  - discriminate.
  - reflexivity.
  - reflexivity.
Defined.

(** C3 fails on a new session with an empty key cache: no error is
    recorded. *)
Lemma no_keys_records_no_error :
  let st := new_session ClerkStateClass_init in
  let st' := snd (ex_set_clerk_session token_1 st) in
  _jwt_public_keys (cls st) = [] /\
  auth_error (self st') = None /\
  ~ (is_signed_in (self st') = false /\
     exists e, auth_error (self st') = Some e).
Proof.
  cbv zeta. split; [reflexivity|]. split; [reflexivity|].
  intros [_ [e He]]. vm_compute in He. discriminate He.
Qed.

(** C3, amended, at work: a session that was presented a text that is no
    token, with an empty key cache. *)
Lemma no_keys_fails_closed :
  let st := handle ex_User ex_User_model ex_JWKS_model ex_json_loads ex_py_format
                   env_secret ex_server ex_jwt_decode
                   (SetClerkSession "garbage") (new_session ClerkStateClass_init) in
  let st' := snd (ex_set_clerk_session token_1 st) in
  fst (ex_set_clerk_session token_1 st) = Returned tt /\
  is_signed_in (self st) = false /\
  is_signed_in (self st') = false /\
  auth_error (self st') = auth_error (self st).
Proof.
  apply (set_clerk_session_no_keys_fails_closed
           ex_User ex_User_model ex_JWKS_model ex_json_loads ex_py_format
           env_secret ex_server ex_jwt_decode token_1).
  - apply reachable_step. apply reachable_new.
  - reflexivity.
Defined.

(** C4 fails when the server does not know the user: [token_2] decodes,
    the server answers 404 to the fetch of [user_2], and the [HTTPError]
    leaves [set_clerk_session]. *)
Lemma fetch_failure_is_raised :
  let st := new_session (class_with_keys true) in
  let st' := snd (ex_set_clerk_session token_2 st) in
  fst (ex_set_clerk_session token_2 st) = Raised (HTTPError 404) /\
  ~ (fst (ex_set_clerk_session token_2 st) = Returned tt /\
     is_signed_in (self st') = true /\
     user (self st') = None /\
     auth_error (self st') = None).
Proof.
  cbv zeta. split; [reflexivity|].
  intros [H _]. vm_compute in H. discriminate H.
Qed.

(** C4, amended, at work, at the same input. *)
Lemma fetch_failure_escapes :
  let st := new_session (class_with_keys true) in
  let st' := snd (ex_set_clerk_session token_2 st) in
  fst (ex_set_clerk_session token_2 st) = Raised (HTTPError 404) /\
  is_signed_in (self st') = true /\
  user (self st') = user (self st) /\
  auth_error (self st') = auth_error (self st) /\
  requested st' =
    (requested st ++
     [user_url ex_py_format env_secret (cls st) (dict_get claims_2 "sub")])%list /\
  fst (ex_fetch_user st') = Raised (HTTPError 404).
Proof.
  destruct (set_clerk_session_fetch_failure_escapes
              ex_User ex_User_model ex_JWKS_model ex_json_loads ex_py_format
              env_secret ex_server ex_jwt_decode
              token_2 (new_session (class_with_keys true)) claims_2
              (HTTPError 404))
    as (H1 & H2 & H3 & H4 & H5 & H6).
  - discriminate.
  - reflexivity.
  - reflexivity.
  - reflexivity.
  - reflexivity.
  - cbv zeta. repeat (split; [assumption|]). apply H6. reflexivity.
Defined.



(** C6 fails on a session with an error on record: a text that is no
    token was presented, then [token_1] is accepted, and the error is
    still there. *)
Lemma success_keeps_old_error :
  let st := snd (ex_set_clerk_session "garbage" (new_session (class_with_keys true))) in
  let st' := snd (ex_set_clerk_session token_1 st) in
  auth_error (self st) = Some not_a_token /\
  ex_jwt_decode token_1 (_jwt_public_keys (cls st)) = Returned claims_1 /\
  auth_error (self st') = Some not_a_token /\
  ~ (is_signed_in (self st') = true /\
     claims (self st') = Some claims_1 /\
     auth_error (self st') = None).
Proof.
  cbv zeta. repeat (split; [reflexivity|]).
  intros (_ & _ & H). vm_compute in H. discriminate H.
Qed.

(** C6, amended, at work, at the same input. *)
Lemma success_sets_session_vars :
  let st := snd (ex_set_clerk_session "garbage" (new_session (class_with_keys true))) in
  let st' := snd (ex_set_clerk_session token_1 st) in
  is_signed_in (self st') = true /\
  claims (self st') = Some claims_1 /\
  user_id (self st') = dict_get claims_1 "sub" /\
  auth_error (self st') = auth_error (self st).
Proof.
  apply (set_clerk_session_success_keeps_error
           ex_User ex_User_model ex_JWKS_model ex_json_loads ex_py_format
           env_secret ex_server ex_jwt_decode token_1
           (snd (ex_set_clerk_session "garbage" (new_session (class_with_keys true))))
           claims_1).
  - discriminate.
  - reflexivity.
Defined.

(** C8 at work: fetch-on-auth is switched off on a new session, then
    [token_1] is presented; the request for [user_1] is sent all the same
    and the user is stored. *)
Lemma fetch_switch_off_still_fetches :
  let st := new_session (class_with_keys true) in
  let st0 := snd (set_fetch_user_on_auth ex_User false st) in
  let st' := snd (ex_set_clerk_session token_1 st0) in
  _fetch_user (cls st0) = false /\
  requested st' =
    (requested st ++
     [user_url ex_py_format env_secret (cls st) (dict_get claims_1 "sub")])%list /\
  user (self st') = Some (mkUser "user_1" None).
Proof.
  destruct (set_clerk_session_fetches_when_disabled
              ex_User ex_User_model ex_JWKS_model ex_json_loads ex_py_format
              env_secret ex_server ex_jwt_decode
              token_1 (new_session (class_with_keys true)) claims_1)
    as (H1 & H2 & H3).
  - apply reachable_new.
  - discriminate.
  - reflexivity.
  - reflexivity.
  - cbv zeta. split; [exact H1|]. split; [exact H2|]. apply H3. reflexivity.
Defined.

(** C9 at work: [token_1] with an empty key cache, on a session that is
    signed in and has a user. *)
Lemma no_keys_nothing_changes :
  let st := {| self := mkVars true (Some not_a_token) (Some claims_1)
                              (PStr "user_1") (Some (mkUser "user_1" None))
                              true;
               cls := ClerkStateClass_init; requested := [] |} in
  let st' := snd (ex_set_clerk_session token_1 st) in
  st' = st /\
  is_signed_in (self st') = is_signed_in (self st) /\
  claims (self st') = claims (self st) /\
  user_id (self st') = user_id (self st) /\
  user (self st') = user (self st) /\
  auth_error (self st') = auth_error (self st).
Proof.
  apply (set_clerk_session_no_keys_unchanged
           ex_User ex_User_model ex_JWKS_model ex_json_loads ex_py_format
           env_secret ex_server ex_jwt_decode token_1).
  reflexivity.
Defined.

(** C10 at work: [fetch_user] on a new session, whose [user_id] is
    [None]. *)
Lemma fetch_user_on_new_session :
  let st := new_session (class_with_keys true) in
  ex_fetch_user st = (Returned tt, st) /\
  requested (snd (ex_fetch_user st)) = requested st /\
  user (self (snd (ex_fetch_user st))) = user (self st).
Proof.
  apply (fetch_user_without_user_id
           ex_User ex_User_model ex_json_loads ex_py_format env_secret ex_server
           (new_session (class_with_keys true))).
  left. reflexivity.
Defined.

(** * More runs in the deployment *)

(** A server that cannot be reached. *)
Definition ex_server_down (log : list string) (url : string)
           (headers : gmap string string) : transport :=
  Failed "Connection refused".

Definition token_3 : string := "header.unknown_kid.signature".
Definition token_4 : string := "header.no_sub.signature".

Definition claims_4 : gmap string pyval := <["exp" := PInt 1700000000]> ∅.

Definition unknown_kid : Exception := ValueError "Invalid JSON Web Key Set".

(** [ex_jwt_decode] with two more tokens: one signed with a key that is not
    in the set, one without a [sub] claim. *)
Definition ex_jwt_decode_more (token : string) (ks : list pyval)
  : outcome (gmap string pyval) :=
  if String.eqb token token_3 then Raised unknown_kid
  else if String.eqb token token_4 then Returned claims_4
  else ex_jwt_decode token ks.

Definition ex_set_clerk_session_more : string -> Py ex_User unit :=
  set_clerk_session ex_User ex_User_model ex_JWKS_model ex_json_loads
    ex_py_format env_secret ex_server ex_jwt_decode_more.

Definition ex_handle : event -> Store ex_User -> Store ex_User :=
  handle ex_User ex_User_model ex_JWKS_model ex_json_loads ex_py_format
    env_secret ex_server ex_jwt_decode.

Definition ex_run_events : list event -> Store ex_User -> Store ex_User :=
  run_events ex_User ex_User_model ex_JWKS_model ex_json_loads ex_py_format
    env_secret ex_server ex_jwt_decode.

Definition env_two : gmap string string :=
  <["CLERK_JWT_PUBLIC_KEYS" := "{},{}"]> ∅.
Definition env_malformed : gmap string string :=
  <["CLERK_JWT_PUBLIC_KEYS" := "{},oops"]> env_secret.

(** Two keys from a value with one comma. *)
Lemma static_list_of_two :
  let st := new_session ClerkStateClass_init in
  fst (ex_jwt_public_keys env_two st) = Returned [PDict []; PDict []] /\
  length [PDict []; PDict []] = S (count_commas "{},{}") /\
  Forall2 (fun p k => ex_json_loads p = Some k) (split_comma "{},{}")
          [PDict []; PDict []].
Proof.
  apply (jwt_public_keys_static_count
           ex_User ex_JWKS_model ex_json_loads env_two ex_server
           (new_session ClerkStateClass_init) "{},{}" [PDict []; PDict []]).
  - reflexivity.
  - reflexivity.
  - reflexivity.
  - reflexivity.
Defined.

(** A static list whose second piece is not JSON, with a secret key
    configured. *)
Lemma static_list_malformed :
  let st := new_session ClerkStateClass_init in
  ex_jwt_public_keys env_malformed st = (Raised (JSONDecodeError "oops"), st).
Proof.
  apply (jwt_public_keys_static_malformed
           ex_User ex_JWKS_model ex_json_loads env_malformed ex_server
           (new_session ClerkStateClass_init) "{},oops" (JSONDecodeError "oops")).
  - reflexivity.
  - reflexivity.
  - reflexivity.
Defined.

(** Both sources configured and the server down. *)
Lemma static_list_after_failed_fetch :
  let run := jwt_public_keys ex_User ex_JWKS_model ex_json_loads env_both
                             ex_server_down in
  let st := new_session ClerkStateClass_init in
  let st' := snd (run st) in
  fst (run st) = Raised (RequestException "Connection refused") /\
  _jwt_public_keys (cls st') = [K1] /\
  self st' = self st /\
  ([K1] <> [] -> run st' = (Returned [K1], st')).
Proof.
  apply (jwt_public_keys_remote_failure
           ex_User ex_JWKS_model ex_json_loads env_both ex_server_down
           (new_session ClerkStateClass_init) K1_text [K1]
           (RequestException "Connection refused")).
  - reflexivity.
  - reflexivity.
  - reflexivity.
  - reflexivity.
  - reflexivity.
Defined.

(** Nothing configured. *)
Lemma nothing_configured :
  let run := jwt_public_keys ex_User ex_JWKS_model ex_json_loads ∅ ex_server in
  let st := new_session ClerkStateClass_init in
  let st' := snd (run st) in
  fst (run st) = Returned [] /\
  requested st' = requested st /\
  self st' = self st /\
  set_clerk_session ex_User ex_User_model ex_JWKS_model ex_json_loads
    ex_py_format ∅ ex_server ex_jwt_decode token_1 st' = (Returned tt, st').
Proof.
  apply (jwt_public_keys_nothing_configured
           ex_User ex_User_model ex_JWKS_model ex_json_loads ex_py_format ∅
           ex_server ex_jwt_decode (new_session ClerkStateClass_init) token_1).
  - reflexivity.
  - reflexivity.
  - reflexivity.
Defined.

(** A token signed with a key that is not in the set. *)
Lemma unknown_kid_escapes :
  let st := new_session (class_with_keys true) in
  ex_set_clerk_session_more token_3 st = (Raised unknown_kid, st).
Proof.
  apply (set_clerk_session_other_exception_escapes
           ex_User ex_User_model ex_JWKS_model ex_json_loads ex_py_format
           env_secret ex_server ex_jwt_decode_more
           token_3 (new_session (class_with_keys true)) unknown_kid).
  - discriminate.
  - reflexivity.
  - reflexivity.
Defined.

(** A text that is no token, then the error is cleared. *)
Lemma garbage_then_clear_error :
  let st := new_session (class_with_keys true) in
  snd (clear_clerk_auth_error ex_User (snd (ex_set_clerk_session "garbage" st))) = st.
Proof.
  apply (rejected_token_then_clear_error
           ex_User ex_User_model ex_JWKS_model ex_json_loads ex_py_format
           env_secret ex_server ex_jwt_decode
           "garbage" (new_session (class_with_keys true)) not_a_token).
  - discriminate.
  - reflexivity.
  - reflexivity.
  - reflexivity.
Defined.

(** A token without [sub]. *)
Lemma token_without_sub :
  let st := new_session (class_with_keys true) in
  let st' := snd (ex_set_clerk_session_more token_4 st) in
  fst (ex_set_clerk_session_more token_4 st) = Returned tt /\
  is_signed_in (self st') = true /\
  claims (self st') = Some claims_4 /\
  user_id (self st') = PNone /\
  user (self st') = user (self st) /\
  requested st' = requested st /\
  cls st' = cls st.
Proof.
  apply (set_clerk_session_without_sub
           ex_User ex_User_model ex_JWKS_model ex_json_loads ex_py_format
           env_secret ex_server ex_jwt_decode_more
           token_4 (new_session (class_with_keys true)) claims_4).
  - discriminate.
  - reflexivity.
  - reflexivity.
Defined.

(** [token_1] on a new session: [user_1] is fetched. *)
Lemma token_1_fetches_user_1 :
  let st := new_session (class_with_keys true) in
  let st' := snd (ex_set_clerk_session token_1 st) in
  fst (ex_set_clerk_session token_1 st) = Returned tt /\
  is_signed_in (self st') = true /\
  claims (self st') = Some claims_1 /\
  user_id (self st') = dict_get claims_1 "sub" /\
  user (self st') = Some (mkUser "user_1" None) /\
  auth_error (self st') = auth_error (self st) /\
  _jwt_public_keys (cls st') = _jwt_public_keys (cls st) /\
  _clerk_api_client (cls st') = Some (resolved_client env_secret (cls st)) /\
  requested st' =
    (requested st ++
     [user_url ex_py_format env_secret (cls st) (dict_get claims_1 "sub")])%list.
Proof.
  apply (set_clerk_session_fetches_user
           ex_User ex_User_model ex_JWKS_model ex_json_loads ex_py_format
           env_secret ex_server ex_jwt_decode
           token_1 (new_session (class_with_keys true)) claims_1 (mkUser "user_1" None)).
  - discriminate.
  - reflexivity.
  - reflexivity.
  - reflexivity.
  - reflexivity.
Defined.

(** [token_1] presented, then withdrawn. *)
Lemma token_1_then_sign_out :
  let st := new_session (class_with_keys true) in
  let st' := snd (clear_clerk_session ex_User (snd (ex_set_clerk_session token_1 st))) in
  is_signed_in (self st') = false /\
  claims (self st') = None /\
  auth_error (self st') = None /\
  user (self st') = Some (mkUser "user_1" None) /\
  user_id (self st') = dict_get claims_1 "sub".
Proof.
  apply (sign_in_then_sign_out_keeps_user
           ex_User ex_User_model ex_JWKS_model ex_json_loads ex_py_format
           env_secret ex_server ex_jwt_decode
           token_1 (new_session (class_with_keys true)) claims_1 (mkUser "user_1" None)).
  - discriminate.
  - reflexivity.
  - reflexivity.
  - reflexivity.
  - reflexivity.
Defined.

(** [token_1] presented twice, while [user_1] takes a first name in
    between. *)
Lemma token_1_twice :
  let run := set_clerk_session ex_User ex_User_model ex_JWKS_model ex_json_loads
               ex_py_format env_secret ex_server_renaming ex_jwt_decode in
  let st := new_session (class_with_keys true) in
  let st1 := snd (run token_1 st) in
  let st2 := snd (run token_1 st1) in
  fst (run token_1 st1) = Returned tt /\
  user (self st1) = Some (mkUser "user_1" None) /\
  user (self st2) = Some (mkUser "user_1" (Some "Ann")) /\
  is_signed_in (self st2) = is_signed_in (self st1) /\
  claims (self st2) = claims (self st1) /\
  user_id (self st2) = user_id (self st1) /\
  auth_error (self st2) = auth_error (self st1) /\
  cls st2 = cls st1 /\
  requested st2 =
    (requested st1 ++
     [user_url ex_py_format env_secret (cls st) (dict_get claims_1 "sub")])%list.
Proof.
  apply (set_clerk_session_again
           ex_User ex_User_model ex_JWKS_model ex_json_loads ex_py_format
           env_secret ex_server_renaming ex_jwt_decode
           token_1 (new_session (class_with_keys true)) claims_1
           (mkUser "user_1" None) (mkUser "user_1" (Some "Ann"))).
  - discriminate.
  - reflexivity.
  - reflexivity.
  - reflexivity.
  - reflexivity.
  - reflexivity.
Defined.

(** A session that signed in, signed out and was then presented a text
    that is no token. *)
Lemma consistent_after_three_events :
  let st := ex_handle (SetClerkSession "garbage")
              (ex_handle ClearClerkSession
                 (ex_handle (SetClerkSession token_1)
                    (new_session (class_with_keys true)))) in
  (is_signed_in (self st) = true <-> claims (self st) <> None) /\
  (forall d, claims (self st) = Some d -> user_id (self st) = dict_get d "sub") /\
  (is_signed_in (self st) = true -> _jwt_public_keys (cls st) <> []).
Proof.
  apply (reachable_session_consistent
           ex_User ex_User_model ex_JWKS_model ex_json_loads ex_py_format
           env_secret ex_server ex_jwt_decode).
  unfold ex_handle. do 3 apply reachable_step. apply reachable_new.
Defined.

(** The key [K1] stays through a read of the property, a sign-in and a
    sign-out, though the server publishes [K2]. *)
Lemma K1_stays :
  let evs := [ReadJwtPublicKeys; SetClerkSession token_1; ClearClerkSession] in
  let st := new_session (class_with_keys true) in
  _jwt_public_keys (cls (ex_run_events evs st)) = _jwt_public_keys (cls st).
Proof.
  apply (key_cache_never_refreshed
           ex_User ex_User_model ex_JWKS_model ex_json_loads ex_py_format
           env_secret ex_server ex_jwt_decode).
  discriminate.
Defined.

(** With an empty cache, a provider, a token and a fetch leave the session
    signed out. *)
Lemma empty_cache_stays_empty :
  let evs := [ProviderCreate (Some "sk_test_123") (Some "pk_test_123");
              SetClerkSession token_1; FetchUser] in
  let st := new_session ClerkStateClass_init in
  _jwt_public_keys (cls (ex_run_events evs st)) = [] /\
  is_signed_in (self (ex_run_events evs st)) = false.
Proof.
  apply (handlers_never_fill_key_cache
           ex_User ex_User_model ex_JWKS_model ex_json_loads ex_py_format
           env_secret ex_server ex_jwt_decode).
  - repeat constructor; discriminate.
  - reflexivity.
  - reflexivity.
Defined.
